(** * ADS1115 driver for the Orange Pi PC: a shallow embedding of [ADS1115.py]

    The Python module talks to an ADS1115 analog-to-digital converter through
    the [smbus2] I2C binding.  The bus is the only source of effects, so the
    embedding threads an explicit chronological log of bus transactions (and
    of the [time.sleep] and [print] calls) through every function, and takes
    the behaviour of the bus as a parameter: an oracle that answers each
    transaction from the log so far.  Python exceptions are an explicit
    outcome of every computation. *)

From Stdlib Require Import String ZArith List Bool Lia.
From Stdlib Require Import Strings.Byte Numbers.Cyclic.Int63.Uint63.
From Stdlib Require Import Floats.PrimFloat Floats.SpecFloat Floats.FloatOps.
From Stdlib Require Import Sorting.Sorted.
Import ListNotations.

Local Open Scope Z_scope.

(** ** Module-level constants (lines 6-21) *)

Definition ADS1115_CONFIG_OS_SINGLE : Z := 0x8000.
Definition ADS1115_CONFIG_MUX_SINGLE_0 : Z := 0x4000.
Definition ADS1115_CONFIG_MUX_SINGLE_1 : Z := 0x5000.
Definition ADS1115_CONFIG_MUX_SINGLE_2 : Z := 0x6000.
Definition ADS1115_CONFIG_MUX_SINGLE_3 : Z := 0x7000.
Definition ADS1115_CONFIG_PGA_4_096V : Z := 0x0200.
Definition ADS1115_CONFIG_MODE_SINGLE : Z := 0x0100.
Definition ADS1115_CONFIG_DR_128SPS : Z := 0x0080.
Definition ADS1115_CONFIG_CMODE_TRAD : Z := 0x0000.
Definition ADS1115_CONFIG_CPOL_ACTVLOW : Z := 0x0000.
Definition ADS1115_CONFIG_CLATCH_NONLAT : Z := 0x0000.
Definition ADS1115_CONFIG_CQUE_NONE : Z := 0x0003.

Definition ADS1115_POINTER_CONVERT : Z := 0x00.
Definition ADS1115_POINTER_CONFIG : Z := 0x01.

(** ** Exceptions

    Only subclasses of [Exception] are modelled.  [OSError] stands for the
    whole [OSError] hierarchy (what [smbus2] raises when an [open] or an
    [ioctl] fails); [OtherException] is any other [Exception] a bus call may
    raise.  The two exception classes of the module keep their payload:
    [AdsNotFound] is built from a message that formats a channel and an
    address, [AdsReadException] either wraps a caught exception ([read]) or a
    message formatted from one ([search_i2c_memory]). *)

Inductive exn : Type :=
| OSError (errno : Z)
| IndexError
| NameError (name : string)
| OtherException (what : string)
| AdsNotFound (i2c_channel address : Z)
| AdsReadException (cause : exn)
| AdsReadExceptionSearching (error : exn).

(** [except OSError] *)
Definition is_OSError (e : exn) : bool :=
  match e with OSError _ => true | _ => false end.

(** [except Exception] *)
Definition is_Exception (e : exn) : bool := true.

(** ** The bus and the log *)

Inductive event : Type :=
| EOpen (i2c_channel : Z) (err : option exn)
| EWriteQuick (bus address : Z) (err : option exn)
| EWriteBlock (bus address register : Z) (data : list Z) (err : option exn)
| EReadBlock (bus address register length : Z) (res : exn + list byte)
| ESleep (milliseconds : Z)
| EPrint (text : string) (error : option exn).

Definition trace : Type := list event.

(** What the I2C bus answers, given everything that happened before. An
    [SMBus] object is identified by the channel it was opened on. *)
Record transport : Type := {
  t_open : trace -> Z -> option exn;
  t_write_quick : trace -> Z -> Z -> option exn;
  t_write_block : trace -> Z -> Z -> Z -> list Z -> option exn;
  t_read_block : trace -> Z -> Z -> Z -> Z -> exn + list byte
}.

(** ** Computations: a log-passing monad with exceptions *)

Inductive outcome (A : Type) : Type :=
| Ret (a : A)
| Raise (e : exn).
Arguments Ret {A} a.
Arguments Raise {A} e.

Definition io (A : Type) : Type := trace -> outcome A * trace.

Definition ret {A} (a : A) : io A := fun h => (Ret a, h).

Definition raise {A} (e : exn) : io A := fun h => (Raise e, h).

Definition bind {A B} (m : io A) (k : A -> io B) : io B :=
  fun h =>
    match m h with
    | (Ret a, h') => k a h'
    | (Raise e, h') => (Raise e, h')
    end.

(** [try: m except <class> as e: handler e] *)
Definition try_except {A} (m : io A) (class : exn -> bool)
    (handler : exn -> io A) : io A :=
  fun h =>
    match m h with
    | (Ret a, h') => (Ret a, h')
    | (Raise e, h') => if class e then handler e h' else (Raise e, h')
    end.

Declare Scope io_scope.
Delimit Scope io_scope with io.
Notation "x <- m ;; k" := (bind m (fun x => k))
  (at level 61, m at next level, right associativity) : io_scope.
Notation "m ;; k" := (bind m (fun _ => k))
  (at level 61, right associativity) : io_scope.
Local Open Scope io_scope.

Definition emit (ev : event) : io unit := fun h => (Ret tt, h ++ [ev]).

Definition of_err (r : option exn) : outcome unit :=
  match r with None => Ret tt | Some e => Raise e end.

Definition of_res {A} (r : exn + A) : outcome A :=
  match r with inl e => Raise e | inr a => Ret a end.

(** The Python int (0..255) that [smbus2] hands back for a byte. *)
Definition Z_of_byte (b : byte) : Z := Z.of_N (Byte.to_N b).

Section Driver.

Variable T : transport.

(** [smbus.SMBus(i2c_channel)] *)
Definition SMBus (i2c_channel : Z) : io Z :=
  fun h =>
    let r := t_open T h i2c_channel in
    (match r with None => Ret i2c_channel | Some e => Raise e end,
     h ++ [EOpen i2c_channel r]).

(** [bus.write_quick(address)] *)
Definition write_quick (bus address : Z) : io unit :=
  fun h =>
    let r := t_write_quick T h bus address in
    (of_err r, h ++ [EWriteQuick bus address r]).

(** [bus.write_i2c_block_data(address, register, data)] *)
Definition write_i2c_block_data (bus address register : Z) (data : list Z)
    : io unit :=
  fun h =>
    let r := t_write_block T h bus address register data in
    (of_err r, h ++ [EWriteBlock bus address register data r]).

(** [bus.read_i2c_block_data(address, register, length)] *)
Definition read_i2c_block_data (bus address register length : Z)
    : io (list byte) :=
  fun h =>
    let r := t_read_block T h bus address register length in
    (of_res r, h ++ [EReadBlock bus address register length r]).

(** [time.sleep(0.1)] *)
Definition sleep_100ms : io unit := emit (ESleep 100).

(** *** [read_channel], the helper nested in [_read_logical_port]

    The closure captures [bus], [address] and [resolution]; here they are
    explicit arguments. *)

(** Lines 56-66: the nine fields are or-ed from left to right. *)
Definition config_word (mux_config : Z) : Z :=
  fold_left Z.lor
    [ mux_config;
      ADS1115_CONFIG_PGA_4_096V;
      ADS1115_CONFIG_MODE_SINGLE;
      ADS1115_CONFIG_DR_128SPS;
      ADS1115_CONFIG_CMODE_TRAD;
      ADS1115_CONFIG_CPOL_ACTVLOW;
      ADS1115_CONFIG_CLATCH_NONLAT;
      ADS1115_CONFIG_CQUE_NONE ]
    ADS1115_CONFIG_OS_SINGLE.

(** Line 69: [[(config >> 8) & 0xFF, config & 0xFF]] *)
Definition config_bytes (config : Z) : list Z :=
  [Z.land (Z.shiftr config 8) 0xFF; Z.land config 0xFF].

(** [result[i]]: the bytes handed back by [smbus2] are Python ints in
    0..255; indexing past the end raises [IndexError]. *)
Definition getitem (result : list byte) (i : nat) : io Z :=
  match nth_error result i with
  | Some b => ret (Z_of_byte b)
  | None => raise IndexError
  end.

(** Line 78: [(result[0] << 8) | result[1]] *)
Definition raw_value (result0 result1 : Z) : Z :=
  Z.lor (Z.shiftl result0 8) result1.

(** Lines 81-82: [if value > 32767: value -= 65536] *)
Definition to_signed (value : Z) : Z :=
  if value >? 32767 then value - 65536 else value.

(** Python converts the int operand of [int * float] to a double before
    multiplying; the conversion is exact below 2^53 in magnitude, which
    covers every decoded sample. *)
Definition float_of_int (value : Z) : float :=
  if value <? 0 then PrimFloat.opp (PrimFloat.of_uint63 (Uint63.of_Z (- value)))
  else PrimFloat.of_uint63 (Uint63.of_Z value).

(** Lines 69-82 of [read_channel]: configure, wait, read back, decode. *)
Definition read_sample (bus address mux_config : Z) : io Z :=
  let config := config_word mux_config in
  write_i2c_block_data bus address ADS1115_POINTER_CONFIG (config_bytes config) ;;
  sleep_100ms ;;
  result <- read_i2c_block_data bus address ADS1115_POINTER_CONVERT 2 ;;
  result0 <- getitem result 0 ;;
  result1 <- getitem result 1 ;;
  ret (to_signed (raw_value result0 result1)).

(** Lines 55-88.  Line 85: [voltage = value * resolution]; nothing is
    rounded before [voltage] is returned. *)
Definition read_channel (bus address : Z) (resolution : float) (mux_config : Z)
    : io float :=
  value <- read_sample bus address mux_config ;;
  let voltage := PrimFloat.mul (float_of_int value) resolution in
  ret voltage.

(** The body of the [try] of [_read_logical_port] (lines 51-99). *)
Definition read_cycle (address : Z) (resolution : float) (i2c_channel : Z)
    : io (list float) :=
  bus <- SMBus i2c_channel ;;
  let voltages := [] in
  v <- read_channel bus address resolution ADS1115_CONFIG_MUX_SINGLE_0 ;;
  let voltages := voltages ++ [v] in
  v <- read_channel bus address resolution ADS1115_CONFIG_MUX_SINGLE_1 ;;
  let voltages := voltages ++ [v] in
  v <- read_channel bus address resolution ADS1115_CONFIG_MUX_SINGLE_2 ;;
  let voltages := voltages ++ [v] in
  v <- read_channel bus address resolution ADS1115_CONFIG_MUX_SINGLE_3 ;;
  let voltages := voltages ++ [v] in
  ret voltages.

(** [Device._read_logical_port] (lines 37-102); [self] is not used. *)
Definition _read_logical_port (address : Z) (resolution : float)
    (i2c_channel : Z) : io (list float) :=
  try_except
    (read_cycle address resolution i2c_channel)
    is_Exception
    (fun error =>
       emit (EPrint "Error reading voltage: " (Some error)) ;;
       ret []).

(** [Device._check_if_device_exists] (lines 104-125); [self] is not used. *)
Definition _check_if_device_exists (i2c_channel address : Z) : io bool :=
  try_except
    (bus <- SMBus i2c_channel ;;
     write_quick bus address ;;
     ret true)
    is_OSError
    (fun _ => ret false).

End Driver.

(** ** The [Device] class *)

(** [Device.__init__] (lines 32-35) stores its three arguments on [self]. *)
Record Device : Type := Device_init {
  address : Z;
  resolution : float;
  i2c_channel : Z
}.

(** The module namespace, as far as [read] consults it: the names
    [address], [resolution] and [i2c_channel] are bound only when the file
    runs as a script (lines 163-166), not when it is imported. *)
Record globals : Type := {
  g_address : option Z;
  g_resolution : option float;
  g_i2c_channel : option Z
}.

(** Loading a name that is neither local nor global raises [NameError]. *)
Definition load_global {A} (name : string) (binding : option A) : io A :=
  match binding with
  | Some v => ret v
  | None => raise (NameError name)
  end.

Section Entry.

Variable T : transport.
Variable G : globals.

(** [Device.read] (lines 127-133).  The arguments of the call on line 130
    and the fields of the f-string on line 131 are plain names, looked up in
    the module namespace, from left to right. *)
Definition read (self : Device) : io (list float) :=
  try_except
    (found <- _check_if_device_exists T (i2c_channel self) (address self) ;;
     if (found : bool) then
       a <- load_global "address" (g_address G) ;;
       r <- load_global "resolution" (g_resolution G) ;;
       c <- load_global "i2c_channel" (g_i2c_channel G) ;;
       _read_logical_port T a r c
     else
       c <- load_global "i2c_channel" (g_i2c_channel G) ;;
       a <- load_global "address" (g_address G) ;;
       raise (AdsNotFound c a))
    is_Exception
    (fun e => raise (AdsReadException e)).

End Entry.

(** ** Bus scan *)

(** [range(start, stop)] *)
Definition range (start stop : Z) : list Z :=
  map (fun i => start + Z.of_nat i) (seq 0 (Z.to_nat (stop - start))).

Section Scan.

Variable T : transport.

(** The [for] loop of lines 142-147 over the remaining addresses. *)
Fixpoint probe_loop (bus : Z) (addresses : list Z) (available_devices : list Z)
    : io (list Z) :=
  match addresses with
  | [] => ret available_devices
  | address :: addresses' =>
      available_devices' <-
        try_except
          (write_quick T bus address ;;
           ret (available_devices ++ [address]))
          is_OSError
          (fun _ => ret available_devices) ;;
      probe_loop bus addresses' available_devices'
  end.

(** [search_i2c_memory] (lines 136-157); [None] is Python's [None]. *)
Definition search_i2c_memory (i2c_channel : Z) : io (option (list Z)) :=
  try_except
    (bus <- SMBus T i2c_channel ;;
     let available_devices := [] in
     emit (EPrint "Searching for I2C devices..." None) ;;
     available_devices <- probe_loop bus (range 0x03 0x78) available_devices ;;
     match available_devices with
     | _ :: _ => ret (Some available_devices)
     | [] => ret None
     end)
    is_Exception
    (fun error => raise (AdsReadExceptionSearching error)).

End Scan.

(** ** The script block (lines 160-179) *)

(** [except AdsReadException]: both ways the module builds one. *)
Definition is_AdsReadException (e : exn) : bool :=
  match e with
  | AdsReadException _ | AdsReadExceptionSearching _ => true
  | _ => false
  end.

(** [except AdsNotFound] *)
Definition is_AdsNotFound (e : exn) : bool :=
  match e with AdsNotFound _ _ => true | _ => false end.

(** [try: m except <class1> as e: handler1 e except <class2> as e: handler2 e]:
    the first clause that matches runs; an exception raised by a handler is
    not offered to the other clause. *)
Definition try_except2 {A} (m : io A)
    (class1 : exn -> bool) (handler1 : exn -> io A)
    (class2 : exn -> bool) (handler2 : exn -> io A) : io A :=
  fun h =>
    match m h with
    | (Ret a, h') => (Ret a, h')
    | (Raise e, h') =>
        if class1 e then handler1 e h'
        else if class2 e then handler2 e h'
        else (Raise e, h')
    end.

Section Script.

Variable T : transport.

(** The body of [if __name__ == "__main__"].  The three assignments of lines
    163-166 are what [read] finds in the module namespace.  The name
    [voltages] is bound only if [read] returns; the result of [main] is its
    binding when the script ends ([None]: unbound), which is also the value
    formatted by the print of line 176 when that line completes. *)
Definition main : io (option (list float)) :=
  try_except
    (let i2c_channel := 0 in
     devices <- search_i2c_memory T i2c_channel ;;
     let address := 0x48 in
     let resolution := PrimFloat.div 0x1.0624dd2f1a9fcp+2%float 32767%float in
     let module_names :=
       {| g_address := Some address;
          g_resolution := Some resolution;
          g_i2c_channel := Some i2c_channel |} in
     let ads_sensor := Device_init address resolution i2c_channel in
     voltages <-
       try_except2
         (voltages <- read T module_names ads_sensor ;;
          ret (Some voltages))
         is_AdsReadException
         (fun e =>
            emit (EPrint "Error reading i2c device: " (Some e)) ;;
            ret None)
         is_AdsNotFound
         (fun e =>
            emit (EPrint "Device not found: " (Some e)) ;;
            ret None) ;;
     readings <- load_global "voltages" voltages ;;
     emit (EPrint "Channel readings: " None) ;;
     ret (Some readings))
    is_Exception
    (fun e =>
       emit (EPrint "General error: " (Some e)) ;;
       ret None).

End Script.

(** ** Views of the log *)

(** The block writes recorded in a log: bus, address, register pointer and
    data of each, in the order they were issued. *)
Definition block_writes (tr : trace) : list (Z * Z * Z * list Z) :=
  flat_map (fun ev => match ev with
                      | EWriteBlock bus a reg data _ => [(bus, a, reg, data)]
                      | _ => []
                      end) tr.

(** The presence probes recorded in a log, with what the bus answered. *)
Definition quick_writes (tr : trace) : list (Z * option exn) :=
  flat_map (fun ev => match ev with
                      | EWriteQuick _ a r => [(a, r)]
                      | _ => []
                      end) tr.

Definition acknowledged (q : Z * option exn) : bool :=
  match snd q with None => true | Some _ => false end.

(** A bus transaction that ended in an exception. *)
Definition failed (ev : event) : bool :=
  match ev with
  | EOpen _ (Some _) => true
  | EWriteQuick _ _ (Some _) => true
  | EWriteBlock _ _ _ _ (Some _) => true
  | EReadBlock _ _ _ _ (inl _) => true
  | _ => false
  end.

(** The block reads recorded in a log: bus, address, register pointer and
    length asked for, in the order they were issued. *)
Definition block_reads (tr : trace) : list (Z * Z * Z * Z) :=
  flat_map (fun ev => match ev with
                      | EReadBlock bus a reg len _ => [(bus, a, reg, len)]
                      | _ => []
                      end) tr.

(** How many block writes of a log were acknowledged. *)
Definition acknowledged_writes (tr : trace) : nat :=
  List.length (filter (fun ev => match ev with
                                 | EWriteBlock _ _ _ _ None => true
                                 | _ => false
                                 end) tr).

(** How many block reads of a log handed back at least the two bytes of a
    conversion result. *)
Definition conversions_done (tr : trace) : nat :=
  List.length (filter (fun ev => match ev with
                                 | EReadBlock _ _ _ _ (inr (_ :: _ :: _)) => true
                                 | _ => false
                                 end) tr).

(** The exception a bus transaction ended in, if any. *)
Definition raised (ev : event) : option exn :=
  match ev with
  | EOpen _ r => r
  | EWriteQuick _ _ r => r
  | EWriteBlock _ _ _ _ r => r
  | EReadBlock _ _ _ _ (inl e) => Some e
  | _ => None
  end.

(** The texts printed in a log, in order. *)
Definition printed (tr : trace) : list string :=
  flat_map (fun ev => match ev with
                      | EPrint text _ => [text]
                      | _ => []
                      end) tr.

(** The transactions that move data to or from a register. *)
Definition is_block_transfer (ev : event) : bool :=
  match ev with
  | EWriteBlock _ _ _ _ _ | EReadBlock _ _ _ _ _ => true
  | _ => false
  end.

(** What a read cycle on bus [c], address [a] may log once the bus is open. *)
Definition cycle_event (c a : Z) (ev : event) : Prop :=
  match ev with
  | EOpen _ _ => False
  | EWriteQuick _ _ _ => False
  | EWriteBlock bus ad reg data _ =>
      bus = c /\ ad = a /\ reg = 0x01 /\ List.length data = 2%nat
  | EReadBlock bus ad reg len _ => bus = c /\ ad = a /\ reg = 0x00 /\ len = 2
  | ESleep ms => ms = 100
  | EPrint text _ => text = "Error reading voltage: "%string
  end.

(** What a scan of bus [c] may log once the bus is open. *)
Definition scan_event (c : Z) (ev : event) : Prop :=
  match ev with
  | EWriteQuick bus a _ => bus = c /\ 0x03 <= a <= 0x77
  | EPrint text _ => text = "Searching for I2C devices..."%string
  | _ => False
  end.

(** The log entries of a channel that is read without trouble: the
    acknowledged configuration write and the conversion read. *)
Definition cfg (bus address mux_config : Z) : event :=
  EWriteBlock bus address ADS1115_POINTER_CONFIG
    (config_bytes (config_word mux_config)) None.

Definition conv (bus address : Z) (bs : list byte) : event :=
  EReadBlock bus address ADS1115_POINTER_CONVERT 2 (inr bs).

(** The log entry of a presence probe. *)
Definition probe_event (bus : Z) (q : Z * option exn) : event :=
  EWriteQuick bus (fst q) (snd q).

(** ** The specification's wording, for comparison with the code *)

(** [0x8000 | (0x4000 + c*0x1000) | 0x0200 | 0x0100 | 0x0080 | 0x0003] *)
Definition spec_config_word (c : Z) : Z :=
  Z.lor (Z.lor (Z.lor (Z.lor (Z.lor 0x8000 (0x4000 + c * 0x1000)) 0x0200)
                      0x0100) 0x0080) 0x0003.

(** Big-endian unsigned 16-bit value of the first two bytes, reinterpreted
    as two's complement. *)
Definition spec_decode (bs : list byte) : option Z :=
  match bs with
  | b0 :: b1 :: _ =>
      let v := Z_of_byte b0 * 256 + Z_of_byte b1 in
      Some (if v <? 32768 then v else v - 65536)
  | _ => None
  end.

(** ** Checking conversions to double *)

(** [f] is the binary64 number whose value is exactly the integer [z]. *)
Definition float_is_integer (f : float) (z : Z) : bool :=
  match Prim2SF f with
  | S754_zero _ => z =? 0
  | S754_finite negative m e =>
      let magnitude :=
        if e <? 0 then Z.pos m / 2 ^ (- e) else Z.pos m * 2 ^ e in
      let exact := if e <? 0 then Z.pos m mod 2 ^ (- e) =? 0 else true in
      exact && ((if negative then - magnitude else magnitude) =? z)
  | _ => false
  end.

(** [P] on every integer of the block of [2^k] integers that starts at
    [lo], by halving. *)
Fixpoint holds_on_block (P : Z -> bool) (k : nat) (lo : Z) : bool :=
  match k with
  | O => P lo
  | S k' => holds_on_block P k' lo && holds_on_block P k' (lo + 2 ^ Z.of_nat k')
  end.

(** ** Concrete buses used to exercise the definitions *)

(** A bus on which every transaction succeeds and every conversion reads
    back the two bytes [hi], [lo]. *)
Definition steady_bus (hi lo : byte) : transport := {|
  t_open := fun _ _ => None;
  t_write_quick := fun _ _ _ => None;
  t_write_block := fun _ _ _ _ _ => None;
  t_read_block := fun _ _ _ _ _ => inr [hi; lo]
|}.

(** A bus that opens (channel 0 only) but on which only address [0x48]
    acknowledges a probe. *)
Definition lone_ads_bus (hi lo : byte) : transport := {|
  t_open := fun _ c => if c =? 0 then None else Some (OSError 2);
  t_write_quick := fun _ _ a => if a =? 0x48 then None else Some (OSError 121);
  t_write_block := fun _ _ a _ _ => if a =? 0x48 then None else Some (OSError 121);
  t_read_block := fun _ _ a _ _ => if a =? 0x48 then inr [hi; lo] else inl (OSError 121)
|}.

(** A bus that opens but on which nothing ever acknowledges. *)
Definition empty_bus : transport := {|
  t_open := fun _ _ => None;
  t_write_quick := fun _ _ _ => Some (OSError 121);
  t_write_block := fun _ _ _ _ _ => Some (OSError 121);
  t_read_block := fun _ _ _ _ _ => inl (OSError 121)
|}.

(** A bus on which everything succeeds until [n] block writes have been
    issued; every block write after that is not acknowledged. *)
Definition flaky_bus (n : nat) (hi lo : byte) : transport := {|
  t_open := fun _ _ => None;
  t_write_quick := fun _ _ _ => None;
  t_write_block := fun h _ _ _ _ =>
    if (n <=? List.length (block_writes h))%nat then Some (OSError 121) else None;
  t_read_block := fun _ _ _ _ _ => inr [hi; lo]
|}.

(** A bus that cannot be opened. *)
Definition missing_bus : transport := {|
  t_open := fun _ _ => Some (OSError 2);
  t_write_quick := fun _ _ _ => Some (OSError 9);
  t_write_block := fun _ _ _ _ _ => Some (OSError 9);
  t_read_block := fun _ _ _ _ _ => inl (OSError 9)
|}.

(** The bindings of lines 163-166; the literal is Python's [4.096]. *)
Definition script_globals : globals := {|
  g_address := Some 0x48;
  g_resolution := Some (PrimFloat.div 0x1.0624dd2f1a9fcp+2%float 32767%float);
  g_i2c_channel := Some 0
|}.

(** The module namespace when the file is imported. *)
Definition no_globals : globals := {|
  g_address := None; g_resolution := None; g_i2c_channel := None
|}.

(** * Properties *)

(** ** Decoding of a conversion result *)

Lemma byte_range (b : byte) : 0 <= Z_of_byte b < 256.
Proof.
  unfold Z_of_byte. pose proof (Byte.to_N_bounded b). lia.
Qed.

(** Shifting the high byte by eight and or-ing the low byte is the
    big-endian value: the two operands have no bit in common. *)
Lemma raw_value_big_endian (b0 b1 : Z) :
  0 <= b1 < 256 -> raw_value b0 b1 = b0 * 256 + b1.
Proof.
  intros Hb1. unfold raw_value.
  rewrite Z.shiftl_mul_pow2 by lia. change (2 ^ 8) with 256.
  assert (Hdisj : Z.land (b0 * 256) b1 = 0).
  { apply Z.bits_inj'. intros n Hn.
    rewrite Z.land_spec, Z.bits_0.
    destruct (Z.lt_ge_cases n 8) as [Hlt | Hge].
    - change 256 with (2 ^ 8). rewrite Z.mul_pow2_bits_low by lia. reflexivity.
    - assert (Z.testbit b1 n = false) as ->; [| apply andb_false_r].
      destruct (Z.eq_dec b1 0) as [-> | Hnz]; [apply Z.bits_0 |].
      apply Z.bits_above_log2; [lia |].
      apply Z.log2_lt_pow2; [lia |].
      apply Z.lt_le_trans with (2 ^ 8); [change (2 ^ 8) with 256; lia |].
      apply Z.pow_le_mono_r; lia. }
  rewrite <- Z.lxor_lor by exact Hdisj.
  symmetry. apply Z.add_nocarry_lxor. exact Hdisj.
Qed.

Lemma to_signed_spec (v : Z) :
  to_signed v = if v <? 32768 then v else v - 65536.
Proof.
  unfold to_signed.
  destruct (Z.gtb_spec v 32767), (Z.ltb_spec v 32768); lia.
Qed.

Lemma to_signed_range (v : Z) :
  0 <= v < 65536 -> -32768 <= to_signed v <= 32767.
Proof.
  intros Hv. unfold to_signed. destruct (Z.gtb_spec v 32767); lia.
Qed.

Example decode_7FFF : to_signed (raw_value 0x7F 0xFF) = 32767.
Proof. reflexivity. Qed.

Example decode_8000 : to_signed (raw_value 0x80 0x00) = -32768.
Proof. reflexivity. Qed.

Example decode_FFFF : to_signed (raw_value 0xFF 0xFF) = -1.
Proof. reflexivity. Qed.

(** C5.  When the configuration write of a channel succeeds and the read of
    two bytes from the conversion register (pointer 0x00) returns [b0; b1],
    the decoded sample is the big-endian value v = b0*256 + b1 read as a
    signed 16-bit number: v below 32768, v - 65536 from 32768 on. *)
Theorem C5_sample_is_signed_big_endian :
  forall (T : transport) (h : trace) (bus address mux_config : Z) (b0 b1 : byte),
    let wr := EWriteBlock bus address 0x01 (config_bytes (config_word mux_config)) None in
    t_write_block T h bus address 0x01 (config_bytes (config_word mux_config)) = None ->
    t_read_block T (h ++ [wr; ESleep 100]) bus address 0x00 2 = inr [b0; b1] ->
    let v := Z_of_byte b0 * 256 + Z_of_byte b1 in
    fst (read_sample T bus address mux_config h)
      = Ret (if v <? 32768 then v else v - 65536)
    /\ 0 <= v < 65536.
Proof.
  intros T h bus address mux_config b0 b1 wr Hw Hr v.
  pose proof (byte_range b0) as H0. pose proof (byte_range b1) as H1.
  split; [| subst v; lia].
  unfold read_sample, bind, write_i2c_block_data, sleep_100ms, emit,
    read_i2c_block_data.
  change ADS1115_POINTER_CONFIG with 0x01.
  change ADS1115_POINTER_CONVERT with 0x00.
  rewrite Hw. cbn [of_err].
  rewrite <- app_assoc. cbn [app]. fold wr.
  rewrite Hr. cbn [of_res getitem nth_error ret fst].
  rewrite to_signed_spec, raw_value_big_endian by exact H1.
  reflexivity.
Qed.

(** The three samples named in the specification, decoded from the bus. *)
Lemma C5_sample_is_signed_big_endian_witness :
  fst (read_sample (steady_bus x7f xff) 0 0x48 0x4000 []) = Ret 32767
  /\ fst (read_sample (steady_bus x80 x00) 0 0x48 0x4000 []) = Ret (-32768)
  /\ fst (read_sample (steady_bus xff xff) 0 0x48 0x4000 []) = Ret (-1).
Proof.
  split; [| split].
  - exact (proj1 (C5_sample_is_signed_big_endian
                    (steady_bus x7f xff) [] 0 0x48 0x4000 x7f xff
                    eq_refl eq_refl)).
  - exact (proj1 (C5_sample_is_signed_big_endian
                    (steady_bus x80 x00) [] 0 0x48 0x4000 x80 x00
                    eq_refl eq_refl)).
  - exact (proj1 (C5_sample_is_signed_big_endian
                    (steady_bus xff xff) [] 0 0x48 0x4000 xff xff
                    eq_refl eq_refl)).
Defined.

(** ** Walking through a read cycle, one bus answer at a time *)

Ltac settled h :=
  lazymatch h with
  | context [t_open _ _ _] => fail
  | context [t_write_quick _ _ _ _] => fail
  | context [t_write_block _ _ _ _ _ _] => fail
  | context [t_read_block _ _ _ _ _ _] => fail
  | _ => idtac
  end.

(** Case analysis on the earliest bus answer that is still unknown. *)
Ltac ask_bus :=
  match goal with
  | |- context [t_open ?T ?h ?c] =>
      settled h; destruct (t_open T h c) eqn:?
  | |- context [t_write_quick ?T ?h ?b ?a] =>
      settled h; destruct (t_write_quick T h b a) eqn:?
  | |- context [t_write_block ?T ?h ?b ?a ?r ?d] =>
      settled h; destruct (t_write_block T h b a r d) eqn:?
  | |- context [t_read_block ?T ?h ?b ?a ?r ?n] =>
      settled h;
      destruct (t_read_block T h b a r n) as [? | [| ? [| ? ?]]] eqn:?
  end.

Ltac run_io :=
  cbv beta iota zeta delta
    [bind ret raise try_except emit of_err of_res getitem nth_error
     load_global SMBus write_quick write_i2c_block_data read_i2c_block_data
     sleep_100ms is_Exception is_OSError fst snd].

Ltac unfold_cycle :=
  unfold _read_logical_port, read_cycle, read_channel, read_sample.

Ltac flatten_log := rewrite <- ?app_assoc; cbn [app].

(** ** The configuration word *)

Lemma config_word_spec (c : Z) :
  config_word (0x4000 + c * 0x1000) = spec_config_word c.
Proof.
  unfold config_word, spec_config_word. cbn [fold_left].
  change ADS1115_CONFIG_CMODE_TRAD with 0.
  change ADS1115_CONFIG_CPOL_ACTVLOW with 0.
  change ADS1115_CONFIG_CLATCH_NONLAT with 0.
  rewrite !Z.lor_0_r. reflexivity.
Qed.

(** C4.  Every block write of a read cycle goes to the configuration
    register (pointer 0x01) of the device; the c-th one, for c in 0..3,
    carries the most-significant byte and then the least-significant byte of
    the 16-bit word 0x8000 | (0x4000 + c*0x1000) | 0x0200 | 0x0100 | 0x0080 |
    0x0003, and that word agrees with channel 0's outside the multiplexer
    field (bits 14-12).  These writes are issued: once the bus is open,
    channel 0's word is written, and after each completed conversion the
    next channel's, so that the log holds one write more than there are
    completed conversions, four at most; every acknowledged write is
    followed by its conversion read.  A cycle that returns readings has
    issued all four. *)
Theorem C4_config_register_bytes :
  forall (T : transport) (h : trace) (address : Z) (resolution : float)
         (i2c_channel : Z),
  exists tr,
    snd (_read_logical_port T address resolution i2c_channel h) = h ++ tr
    /\ (forall (c : nat) bus a reg data,
          nth_error (block_writes tr) c = Some (bus, a, reg, data) ->
          let w := spec_config_word (Z.of_nat c) in
          (c < 4)%nat /\ bus = i2c_channel /\ a = address /\ reg = 0x01
          /\ 0 <= w < 65536
          /\ data = [w / 256; w mod 256]
          /\ Z.land (Z.lxor w (spec_config_word 0)) (Z.lnot 0x7000) = 0)
    /\ (forall v vs,
          fst (_read_logical_port T address resolution i2c_channel h)
            = Ret (v :: vs) ->
          List.length (block_writes tr) = 4%nat)
    /\ List.length (block_writes tr)
       = match t_open T h i2c_channel with
         | Some _ => 0%nat
         | None => Nat.min 4 (S (conversions_done tr))
         end
    /\ List.length (block_reads tr) = acknowledged_writes tr.
Proof.
  intros T h address resolution i2c_channel.
  unfold_cycle. run_io.
  repeat (ask_bus; run_io).
  all: flatten_log.
  all: eexists; split; [reflexivity |].
  all: split;
    [| split;
       [intros v vs Hv; first [discriminate Hv | reflexivity]
       | split; reflexivity]].
  all: intros c bus a reg data Hc.
  all: destruct c as [| [| [| [| c]]]]; cbn in Hc; try discriminate Hc.
  all: try (destruct c; discriminate Hc).
  all: injection Hc as <- <- <- <-.
  all: repeat split; try reflexivity; try lia; vm_compute; congruence.
Qed.

(** On a bus where everything succeeds the four words are written, in
    channel order. *)
Lemma C4_config_register_bytes_witness :
  block_writes (snd (_read_logical_port (steady_bus x0f xff) 0x48 1%float 0 []))
  = [ (0, 0x48, 0x01, [0xC3; 0x83]); (0, 0x48, 0x01, [0xD3; 0x83]);
      (0, 0x48, 0x01, [0xE3; 0x83]); (0, 0x48, 0x01, [0xF3; 0x83]) ]
  /\ block_reads (snd (_read_logical_port (steady_bus x0f xff) 0x48 1%float 0 []))
     = [ (0, 0x48, 0x00, 2); (0, 0x48, 0x00, 2);
         (0, 0x48, 0x00, 2); (0, 0x48, 0x00, 2) ].
Proof.
  destruct (C4_config_register_bytes (steady_bus x0f xff) [] 0x48 1%float 0)
    as (tr & Hlog & Hbytes & _ & Hcount & Hreads).
  cbn [app] in Hlog. rewrite Hlog.
  assert (Hdone : conversions_done tr = 4%nat) by (now rewrite <- Hlog).
  assert (Hacked : acknowledged_writes tr = 4%nat) by (now rewrite <- Hlog).
  rewrite Hdone in Hcount. rewrite Hacked in Hreads.
  cbn [t_open steady_bus Nat.min] in Hcount.
  split.
  - destruct (block_writes tr) as [| w0 [| w1 [| w2 [| w3 [| w4 ws]]]]];
      try discriminate Hcount.
    pose proof (Hbytes 0%nat) as H0. pose proof (Hbytes 1%nat) as H1.
    pose proof (Hbytes 2%nat) as H2. pose proof (Hbytes 3%nat) as H3.
    destruct w0 as [[[b0 a0] r0] d0], w1 as [[[b1 a1] r1] d1],
             w2 as [[[b2 a2] r2] d2], w3 as [[[b3 a3] r3] d3].
    destruct (H0 _ _ _ _ eq_refl) as (_ & -> & -> & -> & _ & -> & _).
    destruct (H1 _ _ _ _ eq_refl) as (_ & -> & -> & -> & _ & -> & _).
    destruct (H2 _ _ _ _ eq_refl) as (_ & -> & -> & -> & _ & -> & _).
    destruct (H3 _ _ _ _ eq_refl) as (_ & -> & -> & -> & _ & -> & _).
    reflexivity.
  - now rewrite <- Hlog.
Defined.

(** The four configuration writes on a bus where everything succeeds. *)
Example config_bytes_on_steady_bus :
  block_writes (snd (_read_logical_port (steady_bus x0f xff) 0x48 1%float 0 []))
  = [ (0, 0x48, 0x01, [0xC3; 0x83]); (0, 0x48, 0x01, [0xD3; 0x83]);
      (0, 0x48, 0x01, [0xE3; 0x83]); (0, 0x48, 0x01, [0xF3; 0x83]) ].
Proof. reflexivity. Qed.

(** ** Readings of a successful cycle *)

Lemma decoded_sample (b0 b1 : byte) (rest : list byte) :
  spec_decode (b0 :: b1 :: rest)
  = Some (to_signed (raw_value (Z_of_byte b0) (Z_of_byte b1))).
Proof.
  unfold spec_decode.
  rewrite to_signed_spec, raw_value_big_endian by apply byte_range.
  reflexivity.
Qed.

Lemma spec_decode_range (bs : list byte) (x : Z) :
  spec_decode bs = Some x -> -32768 <= x <= 32767.
Proof.
  destruct bs as [| b0 [| b1 rest]]; try discriminate.
  unfold spec_decode. intros [= <-].
  pose proof (byte_range b0). pose proof (byte_range b1).
  destruct (Z.ltb_spec (Z_of_byte b0 * 256 + Z_of_byte b1) 32768); lia.
Qed.

(** A boolean property holds on the [2^k] integers from [lo] on. *)
Lemma holds_on_block_sound (P : Z -> bool) (k : nat) :
  forall lo : Z,
    holds_on_block P k lo = true ->
    forall z, lo <= z < lo + 2 ^ Z.of_nat k -> P z = true.
Proof.
  induction k as [| k IH]; intros lo Hall z Hz; cbn [holds_on_block] in Hall.
  - change (2 ^ Z.of_nat 0) with 1 in Hz.
    replace z with lo by lia. exact Hall.
  - apply andb_true_iff in Hall as [Hlow Hhigh].
    rewrite Nat2Z.inj_succ, Z.pow_succ_r in Hz by lia.
    destruct (Z.lt_ge_cases z (lo + 2 ^ Z.of_nat k)).
    + apply (IH lo Hlow). lia.
    + apply (IH (lo + 2 ^ Z.of_nat k) Hhigh). lia.
Qed.

(** The conversion of a sample to a double loses nothing, so a reading is
    the binary64 product of the sample itself and the resolution. *)
Lemma float_of_int_exact (x : Z) :
  -32768 <= x <= 32767 -> float_is_integer (float_of_int x) x = true.
Proof.
  intros Hx.
  apply (holds_on_block_sound
           (fun z => float_is_integer (float_of_int z) z) 16 (-32768)).
  - vm_compute. reflexivity.
  - change (2 ^ Z.of_nat 16) with 65536. lia.
Qed.

(** C6.  A read cycle that completes returns exactly four readings, for
    channels 0, 1, 2, 3 in that order: the reading at position c is the
    product of the resolution and the sample decoded from the conversion
    read that follows channel c's configuration write; the sample enters
    the product unrounded and nothing is rounded after it.  This holds for
    every resolution, in particular for every positive one. *)
Theorem C6_four_readings_in_channel_order :
  forall (T : transport) (h h' : trace) (address : Z) (resolution : float)
         (i2c_channel : Z) (vs : list float),
    read_cycle T address resolution i2c_channel h = (Ret vs, h') ->
    exists bs0 bs1 bs2 bs3 x0 x1 x2 x3,
      h' = h ++ [ EOpen i2c_channel None;
                  cfg i2c_channel address 0x4000; ESleep 100;
                  conv i2c_channel address bs0;
                  cfg i2c_channel address 0x5000; ESleep 100;
                  conv i2c_channel address bs1;
                  cfg i2c_channel address 0x6000; ESleep 100;
                  conv i2c_channel address bs2;
                  cfg i2c_channel address 0x7000; ESleep 100;
                  conv i2c_channel address bs3 ]
      /\ spec_decode bs0 = Some x0 /\ spec_decode bs1 = Some x1
      /\ spec_decode bs2 = Some x2 /\ spec_decode bs3 = Some x3
      /\ Forall (fun x => float_is_integer (float_of_int x) x = true)
                [x0; x1; x2; x3]
      /\ vs = [ PrimFloat.mul (float_of_int x0) resolution;
                PrimFloat.mul (float_of_int x1) resolution;
                PrimFloat.mul (float_of_int x2) resolution;
                PrimFloat.mul (float_of_int x3) resolution ]
      /\ _read_logical_port T address resolution i2c_channel h = (Ret vs, h').
Proof.
  intros T h h' address resolution i2c_channel vs.
  unfold_cycle. run_io.
  repeat (ask_bus; run_io).
  all: intros Hrun; try discriminate Hrun.
  injection Hrun as <- <-. flatten_log.
  do 8 eexists.
  split; [unfold cfg, conv; reflexivity |].
  repeat (split; [apply decoded_sample |]).
  split; [| split; reflexivity].
  repeat (apply Forall_cons;
          [eapply float_of_int_exact, spec_decode_range;
           apply (decoded_sample _ _ []) |]).
  apply Forall_nil.
Qed.

Lemma C6_four_readings_in_channel_order_witness :
  let r := PrimFloat.div 0x1.0624dd2f1a9fcp+2%float 32767%float in
  fst (_read_logical_port (steady_bus x0f xff) 0x48 r 0 [])
  = Ret [ PrimFloat.mul (float_of_int 4095) r; PrimFloat.mul (float_of_int 4095) r;
          PrimFloat.mul (float_of_int 4095) r; PrimFloat.mul (float_of_int 4095) r ].
Proof.
  intros r.
  destruct (C6_four_readings_in_channel_order (steady_bus x0f xff) [] _
              0x48 r 0 _ eq_refl)
    as (bs0 & bs1 & bs2 & bs3 & x0 & x1 & x2 & x3
        & _ & _ & _ & _ & _ & _ & _ & Hport).
  rewrite Hport. reflexivity.
Defined.

(** ** Failures inside a read cycle *)

(** [_read_logical_port] never raises: its handler catches every
    [Exception]. *)
Lemma _read_logical_port_returns (T : transport) (address : Z)
    (resolution : float) (i2c_channel : Z) (h : trace) :
  exists vs h', _read_logical_port T address resolution i2c_channel h = (Ret vs, h').
Proof.
  unfold _read_logical_port, try_except.
  destruct (read_cycle T address resolution i2c_channel h) as [[vs | e] h'].
  - now exists vs, h'.
  - cbn. now eexists _, _.
Qed.

Lemma _read_logical_port_catches (T : transport) (address : Z)
    (resolution : float) (i2c_channel : Z) (h h' : trace) (e : exn) :
  read_cycle T address resolution i2c_channel h = (Raise e, h') ->
  _read_logical_port T address resolution i2c_channel h
  = (Ret [], h' ++ [EPrint "Error reading voltage: " (Some e)]).
Proof.
  intros Hcycle. unfold _read_logical_port, try_except.
  rewrite Hcycle. reflexivity.
Qed.

(** Once the probe has answered [True], [read] is the four-channel cycle on
    whatever the module namespace binds to [address], [resolution] and
    [i2c_channel]; the fields of [self] play no further part. *)
Lemma read_with_module_names (T : transport) (G : globals) (self : Device)
    (h h1 : trace) (a : Z) (r : float) (c : Z) :
  _check_if_device_exists T (i2c_channel self) (address self) h = (Ret true, h1) ->
  g_address G = Some a -> g_resolution G = Some r -> g_i2c_channel G = Some c ->
  read T G self h = _read_logical_port T a r c h1.
Proof.
  intros Hprobe Ha Hr Hc.
  destruct (_read_logical_port_returns T a r c h1) as (vs & h2 & Hport).
  unfold read, try_except, bind.
  rewrite Hprobe, Ha, Hr, Hc. cbn [load_global ret].
  rewrite Hport. reflexivity.
Qed.

(** The specification's reading of C2, at a bus whose second configuration
    write is not acknowledged: channel 0 has been read, channel 1's write
    fails, and the call still returns normally. *)
Lemma C2_counterexample :
  let run := _read_logical_port (flaky_bus 1 x0f xff) 0x48 1%float 0 [] in
  In (conv 0 0x48 [x0f; xff]) (snd run)
  /\ In (EWriteBlock 0 0x48 0x01 [0xD3; 0x83] (Some (OSError 121))) (snd run)
  /\ fst run = Ret []
  /\ ~ (exists e, fst run = Raise e).
Proof.
  cbv zeta. repeat split.
  - vm_compute. tauto.
  - vm_compute. tauto.
  - intros [e He]. vm_compute in He. discriminate He.
Qed.

(** C2, amended.  A read cycle in which the opening of the bus, a
    configuration write or a conversion read fails does not signal an error:
    [_read_logical_port] catches the exception, prints it and returns the
    empty list as a normal result.  The failed transaction is the last one:
    the log ends with it and the print of its exception.  No partial list is
    ever returned: the result is empty or has four readings. *)
Theorem C2_failed_cycle_returns_empty_list :
  forall (T : transport) (h : trace) (address : Z) (resolution : float)
         (i2c_channel : Z),
  exists tr vs,
    _read_logical_port T address resolution i2c_channel h = (Ret vs, h ++ tr)
    /\ (forall ev, In ev tr -> failed ev = true -> vs = [])
    /\ (vs = [] \/ List.length vs = 4%nat)
    /\ (forall ev e,
          In ev tr -> raised ev = Some e ->
          vs = []
          /\ exists before,
               tr = before ++ [ev; EPrint "Error reading voltage: " (Some e)])
    /\ (forall e h',
          read_cycle T address resolution i2c_channel h = (Raise e, h') ->
          vs = []
          /\ h ++ tr = h' ++ [EPrint "Error reading voltage: " (Some e)]).
Proof.
  intros T h address resolution i2c_channel.
  unfold_cycle. run_io.
  repeat (ask_bus; run_io).
  all: flatten_log.
  all: eexists _, _; split; [reflexivity |].
  all: split; [| split; [first [left; reflexivity | right; reflexivity] |]].
  all: try (intros; reflexivity).
  all: lazymatch goal with
       | |- forall x, In x _ -> failed x = true -> _ =>
           intros ev Hin Hfailed; cbn [In] in Hin;
           repeat (destruct Hin as [<- | Hin]; [discriminate Hfailed |]);
           contradiction
       | |- _ /\ _ => split
       end.
  all: lazymatch goal with
       | |- forall x y, In x _ -> raised x = Some y -> _ =>
           intros ev cause Hin Hraised; cbn [In] in Hin;
           repeat (destruct Hin as [<- | Hin];
                   [cbn [raised] in Hraised;
                    first
                      [ discriminate Hraised
                      | injection Hraised as <-; split; [reflexivity |];
                        match goal with
                        | |- exists before, ?l = _ =>
                            exists (removelast (removelast l)); reflexivity
                        end ] |]);
           contradiction
       | |- forall x y, _ = (Raise x, y) -> _ =>
           intros cause h' Hcycle;
           first
             [ discriminate Hcycle
             | injection Hcycle as <- <-; split; [reflexivity |];
               rewrite <- ?app_assoc; reflexivity ]
       end.
Qed.

(** C10.  Whatever exception the four-channel cycle raises,
    [_read_logical_port] catches it, prints it and returns the empty list;
    [read], when it got as far as starting the cycle, hands that empty list
    to its caller as a normal result. *)
Theorem C10_cycle_exception_becomes_empty_list :
  forall (T : transport) (G : globals) (self : Device) (h0 h h' : trace)
         (a : Z) (r : float) (c : Z) (e : exn),
    read_cycle T a r c h = (Raise e, h') ->
    let printed := h' ++ [EPrint "Error reading voltage: " (Some e)] in
    _read_logical_port T a r c h = (Ret [], printed)
    /\ (_check_if_device_exists T (i2c_channel self) (address self) h0
          = (Ret true, h) ->
        g_address G = Some a -> g_resolution G = Some r ->
        g_i2c_channel G = Some c ->
        read T G self h0 = (Ret [], printed)).
Proof.
  intros T G self h0 h h' a r c e Hcycle printed.
  pose proof (_read_logical_port_catches T a r c h h' e Hcycle) as Hport.
  split; [exact Hport |].
  intros Hprobe Ha Hr Hc.
  rewrite (read_with_module_names T G self h0 h a r c Hprobe Ha Hr Hc).
  exact Hport.
Qed.

Lemma C10_cycle_exception_becomes_empty_list_witness :
  let r := PrimFloat.div 0x1.0624dd2f1a9fcp+2%float 32767%float in
  fst (read (flaky_bus 1 x0f xff) script_globals (Device_init 0x48 r 0) [])
  = Ret [].
Proof.
  intros r.
  pose proof (C10_cycle_exception_becomes_empty_list
                (flaky_bus 1 x0f xff) script_globals (Device_init 0x48 r 0)
                [] [EOpen 0 None; EWriteQuick 0 0x48 None] _
                0x48 r 0 (OSError 121) eq_refl) as [_ Hread].
  rewrite (Hread eq_refl eq_refl eq_refl eq_refl). reflexivity.
Defined.

(** ** The presence probe *)

(** C9.  The probe returns [True] exactly when the bus opens and the quick
    write completes; it returns [False], as an ordinary value, when the
    quick write (or the opening of the bus) fails with an [OSError], which
    is how the bus reports a missing acknowledge; it can only raise an
    exception that is not an [OSError]. *)
Theorem C9_probe_is_boolean :
  forall (T : transport) (h : trace) (i2c_channel address : Z),
    let opened := t_open T h i2c_channel in
    let acked :=
      t_write_quick T (h ++ [EOpen i2c_channel None]) i2c_channel address in
    let result := fst (_check_if_device_exists T i2c_channel address h) in
    (result = Ret true <-> opened = None /\ acked = None)
    /\ (forall errno,
          opened = None -> acked = Some (OSError errno) -> result = Ret false)
    /\ (forall errno, opened = Some (OSError errno) -> result = Ret false)
    /\ (forall e,
          result = Raise e ->
          is_OSError e = false
          /\ (opened = Some e \/ (opened = None /\ acked = Some e))).
Proof.
  intros T h i2c_channel address opened acked result.
  subst opened acked result.
  unfold _check_if_device_exists. run_io.
  destruct (t_open T h i2c_channel) as [eo |] eqn:Hopen.
  - destruct eo; cbn; repeat split; intros; intuition (try congruence).
    all: match goal with H : Raise _ = Raise _ |- _ => injection H as <- end.
    all: auto.
  - destruct (t_write_quick T (h ++ [EOpen i2c_channel None]) i2c_channel address)
      as [eq |] eqn:Hquick.
    + destruct eq; cbn; repeat split; intros; intuition (try congruence).
      all: match goal with H : Raise _ = Raise _ |- _ => injection H as <- end.
      all: auto.
    + cbn. repeat split; intros; intuition congruence.
Qed.

Lemma C9_probe_is_boolean_witness :
  fst (_check_if_device_exists (lone_ads_bus x0f xff) 0 0x48 []) = Ret true
  /\ fst (_check_if_device_exists (lone_ads_bus x0f xff) 0 0x49 []) = Ret false
  /\ fst (_check_if_device_exists (lone_ads_bus x0f xff) 1 0x48 []) = Ret false.
Proof.
  split; [| split].
  - apply (proj1 (C9_probe_is_boolean (lone_ads_bus x0f xff) [] 0 0x48)).
    split; reflexivity.
  - exact (proj1 (proj2 (C9_probe_is_boolean (lone_ads_bus x0f xff) [] 0 0x49))
             121 eq_refl eq_refl).
  - exact (proj1 (proj2 (proj2
             (C9_probe_is_boolean (lone_ads_bus x0f xff) [] 1 0x48)))
             2 eq_refl).
Defined.

(** The probe touches the bus with an open and at most one quick write. *)
Lemma probe_log (T : transport) (i2c_channel address : Z) (h : trace) :
  exists tr,
    snd (_check_if_device_exists T i2c_channel address h) = h ++ tr
    /\ block_writes tr = [].
Proof.
  unfold _check_if_device_exists. run_io.
  destruct (t_open T h i2c_channel) as [[] |];
    [..| destruct (t_write_quick T (h ++ [EOpen i2c_channel None])
                     i2c_channel address) as [[] |]].
  all: flatten_log; eexists; split; reflexivity.
Qed.

(** ** [read] on an absent device *)

(** When the probe answers [False], the [AdsNotFound] raised on line 131 is
    caught by the handler of line 132 of the same [try]: the caller always
    gets an [AdsReadException], and the log holds nothing beyond the
    probe. *)
Lemma read_absent_device (T : transport) (G : globals) (self : Device)
    (h h1 : trace) :
  _check_if_device_exists T (i2c_channel self) (address self) h = (Ret false, h1) ->
  exists cause,
    read T G self h = (Raise (AdsReadException cause), h1)
    /\ match g_i2c_channel G, g_address G with
       | Some c, Some a => cause = AdsNotFound c a
       | Some _, None => cause = NameError "address"
       | None, _ => cause = NameError "i2c_channel"
       end.
Proof.
  intros Hprobe. unfold read, try_except, bind. rewrite Hprobe.
  destruct (g_i2c_channel G) as [c |], (g_address G) as [a |]; cbn;
    eexists; split; reflexivity.
Qed.

(** C3, evaluated where it fails.  An ADS1115 configured at address 0x48 on
    bus 0, nothing acknowledging on the bus.  No configuration write is
    attempted, but the exception that reaches the caller is the generic
    [AdsReadException], wrapping [AdsNotFound] when the file runs as a
    script, and wrapping a [NameError] when the module is imported. *)
Theorem C3_absent_device_raises_generic_error :
  let self := Device_init 0x48 1%float 0 in
  let probed := [EOpen 0 None; EWriteQuick 0 0x48 (Some (OSError 121))] in
  read empty_bus script_globals self []
  = (Raise (AdsReadException (AdsNotFound 0 0x48)), probed)
  /\ read empty_bus no_globals self []
     = (Raise (AdsReadException (NameError "i2c_channel")), probed)
  /\ block_writes probed = [].
Proof.
  cbv zeta. split; [| split]; reflexivity.
Qed.

(** C1, evaluated where it fails.  A device constructed for address 0x49 on
    bus 1 with resolution 0.5, in a script whose module-level names are
    those of lines 163-166: the probe goes to the instance's bus and
    address, the four conversions go to bus 0, address 0x48, and are scaled
    by the module-level resolution.  With the names unbound, [read] fails
    with a wrapped [NameError] after the probe. *)
Theorem C1_read_uses_module_names :
  let self := Device_init 0x49 0.5%float 1 in
  let r := PrimFloat.div 0x1.0624dd2f1a9fcp+2%float 32767%float in
  let v := PrimFloat.mul (float_of_int 4095) r in
  read (steady_bus x0f xff) script_globals self []
  = (Ret [v; v; v; v],
     [ EOpen 1 None; EWriteQuick 1 0x49 None;
       EOpen 0 None;
       cfg 0 0x48 0x4000; ESleep 100; conv 0 0x48 [x0f; xff];
       cfg 0 0x48 0x5000; ESleep 100; conv 0 0x48 [x0f; xff];
       cfg 0 0x48 0x6000; ESleep 100; conv 0 0x48 [x0f; xff];
       cfg 0 0x48 0x7000; ESleep 100; conv 0 0x48 [x0f; xff] ])
  /\ read (steady_bus x0f xff) no_globals self []
     = (Raise (AdsReadException (NameError "address")),
        [EOpen 1 None; EWriteQuick 1 0x49 None])
  /\ v <> PrimFloat.mul (float_of_int 4095) (resolution self).
Proof.
  cbv zeta. split; [| split]; try reflexivity.
  intros Heq. vm_compute in Heq. discriminate Heq.
Qed.

(** ** The bus scan *)

Section RangeFacts.

Lemma range_bounds (start stop a : Z) :
  In a (range start stop) -> start <= a < stop.
Proof.
  unfold range. rewrite in_map_iff.
  intros (i & <- & Hi). apply in_seq in Hi. lia.
Qed.

Lemma shifted_seq_sorted (start : Z) (n first : nat) :
  StronglySorted Z.lt (map (fun i => start + Z.of_nat i) (seq first n)).
Proof.
  revert first. induction n as [| n IH]; intros first; cbn [seq map].
  - constructor.
  - constructor; [apply IH |].
    apply Forall_forall. intros a Ha.
    apply in_map_iff in Ha as (i & <- & Hi). apply in_seq in Hi. lia.
Qed.

Lemma range_sorted (start stop : Z) : StronglySorted Z.lt (range start stop).
Proof. apply shifted_seq_sorted. Qed.

End RangeFacts.

Section Selections.

Variables (A : Type) (key : A -> Z) (keep : A -> bool).

Lemma selection_within (P : Z -> Prop) (l : list A) :
  Forall P (map key l) -> Forall P (map key (filter keep l)).
Proof.
  induction l as [| x l IH]; cbn [map filter]; intros Hall; [constructor |].
  apply Forall_cons_iff in Hall as [Hx Hl].
  destruct (keep x); cbn [map]; auto.
Qed.

Lemma selection_sorted (l : list A) :
  StronglySorted Z.lt (map key l) ->
  StronglySorted Z.lt (map key (filter keep l)).
Proof.
  induction l as [| x l IH]; cbn [map filter]; intros Hs; [constructor |].
  apply StronglySorted_inv in Hs as [Hl Hx].
  destruct (keep x); cbn [map]; [| auto].
  constructor; [auto | apply selection_within; exact Hx].
Qed.

End Selections.

Lemma quick_writes_probe_events (bus : Z) (qs : list (Z * option exn)) :
  quick_writes (map (probe_event bus) qs) = qs.
Proof.
  induction qs as [| [a r] qs IH]; cbn; [| rewrite <- IH at 2]; reflexivity.
Qed.

Section LoopFacts.

Variable T : transport.
Variable bus : Z.

(** One iteration of the loop body, by the answer of the bus. *)
Lemma probe_loop_step (a : Z) (rest avail : list Z) (h : trace) :
  let r := t_write_quick T h bus a in
  let h1 := h ++ [EWriteQuick bus a r] in
  probe_loop T bus (a :: rest) avail h
  = match r with
    | None => probe_loop T bus rest (avail ++ [a]) h1
    | Some e => if is_OSError e then probe_loop T bus rest avail h1
                else (Raise e, h1)
    end.
Proof.
  cbn [probe_loop]. unfold bind, try_except, write_quick.
  destruct (t_write_quick T h bus a) as [e |]; cbn; [destruct e |]; reflexivity.
Qed.

(** A loop that runs to its end has probed every address once, in order,
    and collected the acknowledged ones in that order. *)
Lemma probe_loop_log (addresses : list Z) :
  forall (avail : list Z) (h : trace) (l : list Z) (h' : trace),
    probe_loop T bus addresses avail h = (Ret l, h') ->
    exists qs,
      h' = h ++ map (probe_event bus) qs
      /\ map fst qs = addresses
      /\ l = avail ++ map fst (filter acknowledged qs).
Proof.
  induction addresses as [| a rest IH]; intros avail h l h' Hrun.
  - injection Hrun as <- <-. exists [].
    cbn. now rewrite !app_nil_r.
  - rewrite probe_loop_step in Hrun. cbv zeta in Hrun.
    destruct (t_write_quick T h bus a) as [e |] eqn:Hq.
    + destruct (is_OSError e); [| discriminate Hrun].
      apply IH in Hrun as (qs & -> & <- & ->).
      exists ((a, Some e) :: qs). cbn. now rewrite <- app_assoc.
    + apply IH in Hrun as (qs & -> & <- & ->).
      exists ((a, None) :: qs). cbn. now rewrite <- !app_assoc.
Qed.

(** The loop only stops early on an exception outside the [OSError]
    family, raised by a probe of one of its addresses. *)
Lemma probe_loop_raises (addresses : list Z) :
  forall (avail : list Z) (h h' : trace) (e : exn),
    probe_loop T bus addresses avail h = (Raise e, h') ->
    is_OSError e = false
    /\ exists h0 a, In a addresses /\ t_write_quick T h0 bus a = Some e.
Proof.
  induction addresses as [| a rest IH]; intros avail h h' e Hrun.
  - discriminate Hrun.
  - rewrite probe_loop_step in Hrun. cbv zeta in Hrun.
    destruct (t_write_quick T h bus a) as [e0 |] eqn:Hq.
    + destruct (is_OSError e0) eqn:Hos.
      * apply IH in Hrun as (Hne & h0 & a0 & Hin & Hq0).
        split; [exact Hne |]. exists h0, a0. split; [now right | exact Hq0].
      * injection Hrun as <- <-.
        split; [exact Hos |]. exists h, a. split; [now left | exact Hq].
    + apply IH in Hrun as (Hne & h0 & a0 & Hin & Hq0).
      split; [exact Hne |]. exists h0, a0. split; [now right | exact Hq0].
Qed.

(** On a bus where every probe fails with an [OSError], nothing is
    collected. *)
Lemma probe_loop_nobody (addresses : list Z) :
  (forall h a, exists errno, t_write_quick T h bus a = Some (OSError errno)) ->
  forall (avail : list Z) (h : trace),
    fst (probe_loop T bus addresses avail h) = Ret avail.
Proof.
  intros Hnack. induction addresses as [| a rest IH]; intros avail h.
  - reflexivity.
  - rewrite probe_loop_step. cbv zeta.
    destruct (Hnack h a) as [errno ->]. cbn [is_OSError]. apply IH.
Qed.

End LoopFacts.

(** What [search_i2c_memory] does once the bus is open. *)
Lemma search_after_open (T : transport) (i2c_channel : Z) (h : trace) :
  t_open T h i2c_channel = None ->
  let h1 := h ++ [EOpen i2c_channel None;
                  EPrint "Searching for I2C devices..." None] in
  search_i2c_memory T i2c_channel h
  = match probe_loop T i2c_channel (range 0x03 0x78) [] h1 with
    | (Ret [], h') => (Ret None, h')
    | (Ret (a :: l), h') => (Ret (Some (a :: l)), h')
    | (Raise e, h') => (Raise (AdsReadExceptionSearching e), h')
    end.
Proof.
  intros Hopen h1. subst h1.
  unfold search_i2c_memory, try_except, bind, SMBus, emit.
  rewrite Hopen. rewrite <- app_assoc. cbn [app].
  destruct (probe_loop _ _ _ _ _) as [[[| a l] | e] h']; reflexivity.
Qed.

Lemma search_open_fails (T : transport) (i2c_channel : Z) (h : trace) (e : exn) :
  t_open T h i2c_channel = Some e ->
  search_i2c_memory T i2c_channel h
  = (Raise (AdsReadExceptionSearching e), h ++ [EOpen i2c_channel (Some e)]).
Proof.
  intros Hopen.
  unfold search_i2c_memory, try_except, bind, SMBus. rewrite Hopen. reflexivity.
Qed.

(** The specification's reading of C7, at a bus that opens and on which
    nothing acknowledges: the scan does not return an empty sequence. *)
Lemma C7_counterexample :
  t_open empty_bus [] 0 = None
  /\ (forall h a, t_write_quick empty_bus h 0 a = Some (OSError 121))
  /\ fst (search_i2c_memory empty_bus 0 []) = Ret None
  /\ fst (search_i2c_memory empty_bus 0 []) <> Ret (Some []).
Proof.
  split; [reflexivity |]. split; [reflexivity |].
  split; [vm_compute; reflexivity |].
  intros Heq. vm_compute in Heq. discriminate Heq.
Qed.

(** C7, amended.  On a bus that opens and on which every presence probe
    fails with an [OSError], the scan returns [None] as a normal result:
    the absent value, not an empty sequence and not an error.  It raises
    [AdsReadException] when the bus cannot be opened; the only other way it
    raises is a probe failing with an exception outside the [OSError]
    family. *)
Theorem C7_silent_bus_scans_to_None :
  forall (T : transport) (i2c_channel : Z) (h : trace),
    (t_open T h i2c_channel = None ->
     (forall h' a, exists errno,
         t_write_quick T h' i2c_channel a = Some (OSError errno)) ->
     fst (search_i2c_memory T i2c_channel h) = Ret None)
    /\ (forall e,
          t_open T h i2c_channel = Some e ->
          fst (search_i2c_memory T i2c_channel h)
          = Raise (AdsReadExceptionSearching e))
    /\ (forall e,
          fst (search_i2c_memory T i2c_channel h) = Raise e ->
          exists cause,
            e = AdsReadExceptionSearching cause
            /\ (t_open T h i2c_channel = Some cause
                \/ (is_OSError cause = false
                    /\ exists h' a,
                         0x03 <= a <= 0x77
                         /\ t_write_quick T h' i2c_channel a = Some cause))).
Proof.
  intros T i2c_channel h. split; [| split].
  - intros Hopen Hnack. rewrite (search_after_open T i2c_channel h Hopen).
    cbv zeta.
    pose proof (probe_loop_nobody T i2c_channel (range 0x03 0x78) Hnack []
                  (h ++ [EOpen i2c_channel None;
                         EPrint "Searching for I2C devices..." None])) as Hloop.
    destruct (probe_loop _ _ _ _ _) as [[[| a l] | e] h'];
      cbn [fst] in Hloop; try discriminate Hloop; reflexivity.
  - intros e Hopen. now rewrite (search_open_fails T i2c_channel h e Hopen).
  - intros e Hraise.
    destruct (t_open T h i2c_channel) as [e0 |] eqn:Hopen.
    + rewrite (search_open_fails T i2c_channel h e0 Hopen) in Hraise.
      injection Hraise as <-. exists e0. split; [reflexivity | now left].
    + rewrite (search_after_open T i2c_channel h Hopen) in Hraise.
      cbv zeta in Hraise.
      destruct (probe_loop _ _ _ _ _) as [[[| a l] | e1] h'] eqn:Hloop;
        cbn [fst] in Hraise; try discriminate Hraise.
      injection Hraise as <-.
      apply probe_loop_raises in Hloop as (Hne & h0 & a & Hin & Hq).
      exists e1. split; [reflexivity |]. right. split; [exact Hne |].
      exists h0, a. split; [| exact Hq].
      apply range_bounds in Hin. lia.
Qed.

Lemma C7_silent_bus_scans_to_None_witness :
  fst (search_i2c_memory empty_bus 0 []) = Ret None.
Proof.
  apply (proj1 (C7_silent_bus_scans_to_None empty_bus 0 [])).
  - reflexivity.
  - intros h' a. exists 121. reflexivity.
Defined.

(** C8.  Whenever the scan returns a sequence of addresses, it has probed
    0x03 through 0x77 once each in ascending order, the sequence holds the
    acknowledged addresses in probe order, is strictly ascending, and lies
    within [0x03, 0x77]. *)
Theorem C8_scan_ascending_in_range :
  forall (T : transport) (i2c_channel : Z) (h : trace) (l : list Z),
    fst (search_i2c_memory T i2c_channel h) = Ret (Some l) ->
    StronglySorted Z.lt l
    /\ Forall (fun a => 0x03 <= a <= 0x77) l
    /\ exists tr,
         snd (search_i2c_memory T i2c_channel h) = h ++ tr
         /\ map fst (quick_writes tr) = range 0x03 0x78
         /\ l = map fst (filter acknowledged (quick_writes tr)).
Proof.
  intros T i2c_channel h l Hscan.
  destruct (t_open T h i2c_channel) as [e0 |] eqn:Hopen.
  { rewrite (search_open_fails T i2c_channel h e0 Hopen) in Hscan.
    discriminate Hscan. }
  rewrite (search_after_open T i2c_channel h Hopen) in Hscan |- *.
  cbv zeta in Hscan |- *.
  destruct (probe_loop _ _ _ _ _) as [[[| a l'] | e1] h'] eqn:Hloop;
    cbn [fst snd] in Hscan |- *; try discriminate Hscan.
  injection Hscan as <-.
  apply probe_loop_log in Hloop as (qs & -> & Hprobed & Hfound).
  cbn [app] in Hfound. rewrite Hfound.
  split; [| split].
  - apply selection_sorted. rewrite Hprobed. apply range_sorted.
  - apply selection_within. rewrite Hprobed.
    apply Forall_forall. intros x Hx. apply range_bounds in Hx. lia.
  - exists ([EOpen i2c_channel None;
             EPrint "Searching for I2C devices..." None]
            ++ map (probe_event i2c_channel) qs).
    rewrite <- app_assoc.
    split; [reflexivity |].
    cbn [app quick_writes flat_map]. fold (quick_writes (map (probe_event i2c_channel) qs)).
    rewrite quick_writes_probe_events. split; [exact Hprobed | reflexivity].
Qed.

Lemma C8_scan_ascending_in_range_witness :
  fst (search_i2c_memory (lone_ads_bus x0f xff) 0 []) = Ret (Some [0x48])
  /\ StronglySorted Z.lt [0x48]
  /\ Forall (fun a => 0x03 <= a <= 0x77) [0x48].
Proof.
  assert (Hscan : fst (search_i2c_memory (lone_ads_bus x0f xff) 0 [])
                  = Ret (Some [0x48])) by (vm_compute; reflexivity).
  split; [exact Hscan |].
  destruct (C8_scan_ascending_in_range (lone_ads_bus x0f xff) 0 [] [0x48] Hscan)
    as (Hsorted & Hrange & _).
  split; assumption.
Defined.

(** * Further properties of the driver *)

(** ** Bytes on the wire *)

Lemma low_byte (z : Z) : Z.land z 0xFF = z mod 256.
Proof. change 0xFF with (Z.ones 8). now rewrite Z.land_ones by lia. Qed.

(** X1.  The two bytes written for a configuration word are valid bytes, and
    reading them back the way a conversion result is assembled gives the
    low 16 bits of the word: the encoding of line 69 and the decoding of
    line 78 are inverse to each other on 16-bit values. *)
Theorem config_bytes_round_trip :
  forall config : Z,
  exists hi lo,
    config_bytes config = [hi; lo]
    /\ 0 <= hi < 256 /\ 0 <= lo < 256
    /\ raw_value hi lo = config mod 65536
    /\ (0 <= config < 65536 -> raw_value hi lo = config).
Proof.
  intros config. unfold config_bytes. rewrite !low_byte.
  rewrite Z.shiftr_div_pow2 by lia. change (2 ^ 8) with 256.
  pose proof (Z.mod_pos_bound (config / 256) 256 ltac:(lia)) as Hhi.
  pose proof (Z.mod_pos_bound config 256 ltac:(lia)) as Hlo.
  assert (Hraw : raw_value ((config / 256) mod 256) (config mod 256)
                 = config mod 65536).
  { rewrite raw_value_big_endian by exact Hlo.
    change 65536 with (256 * 256).
    rewrite Z.rem_mul_r by lia. lia. }
  eexists _, _. repeat split; try lia; try exact Hraw.
  intros Hc. rewrite Hraw. apply Z.mod_small. exact Hc.
Qed.

(** X2.  The bit fields of the word built by [read_channel] for a multiplexer
    selection [k] (bits 14-12): conversion start set, gain field 001
    (4.096 V), single-shot bit set, data-rate field 100 (128 SPS),
    comparator mode, polarity and latch clear, comparator queue 11
    (disabled); the word fits 16 bits. *)
Theorem config_word_fields :
  forall k : Z,
    0 <= k < 8 ->
    let w := config_word (k * 0x1000) in
    0 <= w < 65536
    /\ Z.shiftr w 15 = 1
    /\ Z.land (Z.shiftr w 12) 7 = k
    /\ Z.land (Z.shiftr w 9) 7 = 1
    /\ Z.land (Z.shiftr w 8) 1 = 1
    /\ Z.land (Z.shiftr w 5) 7 = 4
    /\ Z.land (Z.shiftr w 2) 7 = 0
    /\ Z.land w 3 = 3.
Proof.
  intros k Hk w. subst w.
  assert (Hcases : k = 0 \/ k = 1 \/ k = 2 \/ k = 3 \/ k = 4 \/ k = 5
                   \/ k = 6 \/ k = 7) by lia.
  destruct Hcases as [-> | [-> | [-> | [-> | [-> | [-> | [-> | ->]]]]]]];
    vm_compute; repeat split; congruence.
Qed.

Lemma config_word_fields_witness :
  let w := config_word ADS1115_CONFIG_MUX_SINGLE_2 in
  Z.land (Z.shiftr w 12) 7 = 6 /\ Z.land w 3 = 3.
Proof.
  destruct (config_word_fields 6 ltac:(lia))
    as (_ & _ & Hmux & _ & _ & _ & _ & Hque).
  split; [exact Hmux | exact Hque].
Defined.

(** ** One channel *)

(** What [read_sample] does, by the answers of the bus. *)
Lemma read_sample_cases (T : transport) (bus address mux_config : Z) (h : trace) :
  let data := config_bytes (config_word mux_config) in
  let wrote := t_write_block T h bus address 0x01 data in
  let h1 := h ++ [EWriteBlock bus address 0x01 data None; ESleep 100] in
  let got := t_read_block T h1 bus address 0x00 2 in
  read_sample T bus address mux_config h
  = match wrote with
    | Some e => (Raise e, h ++ [EWriteBlock bus address 0x01 data (Some e)])
    | None =>
        (match got with
         | inl e => Raise e
         | inr (b0 :: b1 :: _) =>
             Ret (to_signed (raw_value (Z_of_byte b0) (Z_of_byte b1)))
         | inr _ => Raise IndexError
         end,
         h1 ++ [EReadBlock bus address 0x00 2 got])
    end.
Proof.
  unfold read_sample. run_io.
  change ADS1115_POINTER_CONFIG with 0x01.
  change ADS1115_POINTER_CONVERT with 0x00.
  destruct (t_write_block T h bus address 1 _) as [e |]; [reflexivity |].
  rewrite <- app_assoc. cbn [app].
  destruct (t_read_block T _ bus address 0 2) as [e | [| b0 [| b1 rest]]];
    reflexivity.
Qed.

(** X3.  Every sample [read_sample] returns is a signed 16-bit number, congruent
    modulo 65536 to the big-endian value of the first two bytes read, and
    negative exactly when the top bit of the first byte is set. *)
Theorem read_sample_is_int16 :
  forall (T : transport) (bus address mux_config : Z) (h : trace) (x : Z),
    fst (read_sample T bus address mux_config h) = Ret x ->
    exists b0 b1 rest,
      EReadBlock bus address 0x00 2 (inr (b0 :: b1 :: rest))
        = last (snd (read_sample T bus address mux_config h)) (ESleep 0)
      /\ -32768 <= x <= 32767
      /\ x mod 65536 = Z_of_byte b0 * 256 + Z_of_byte b1
      /\ (x < 0 <-> 128 <= Z_of_byte b0).
Proof.
  intros T bus address mux_config h x.
  rewrite read_sample_cases. cbv zeta.
  destruct (t_write_block T h bus address 1 _) as [e |];
    [intros Hx; discriminate Hx |].
  destruct (t_read_block T _ bus address 0 2) as [e | [| b0 [| b1 rest]]];
    cbn [fst snd]; intros Hx; try discriminate Hx.
  injection Hx as <-.
  exists b0, b1, rest.
  split; [now rewrite last_last |].
  pose proof (byte_range b0) as H0. pose proof (byte_range b1) as H1.
  rewrite raw_value_big_endian by exact H1.
  unfold to_signed.
  destruct (Z.gtb_spec (Z_of_byte b0 * 256 + Z_of_byte b1) 32767).
  - repeat split; try lia.
    replace (Z_of_byte b0 * 256 + Z_of_byte b1 - 65536)
      with (Z_of_byte b0 * 256 + Z_of_byte b1 + (-1) * 65536) by lia.
    rewrite Z.mod_add by lia. apply Z.mod_small. lia.
  - repeat split; try lia. apply Z.mod_small. lia.
Qed.

Lemma read_sample_is_int16_witness :
  exists b0 b1 rest,
    EReadBlock 0 0x48 0x00 2 (inr (b0 :: b1 :: rest))
      = last (snd (read_sample (steady_bus xff x38) 0 0x48 0x4000 [])) (ESleep 0)
    /\ -32768 <= -200 <= 32767
    /\ (-200) mod 65536 = Z_of_byte b0 * 256 + Z_of_byte b1
    /\ (-200 < 0 <-> 128 <= Z_of_byte b0).
Proof.
  exact (read_sample_is_int16 (steady_bus xff x38) 0 0x48 0x4000 [] (-200)
           eq_refl).
Defined.

(** ** The whole cycle *)

(** As [run_io], but indexing is only reduced where the list and the index
    are known, so that statements about positions in a log stay readable. *)
Ltac run_io_keeping_positions :=
  cbv beta iota zeta delta
    [bind ret raise try_except emit of_err of_res getitem
     load_global SMBus write_quick write_i2c_block_data read_i2c_block_data
     sleep_100ms is_Exception is_OSError fst snd];
  cbn [nth_error].

Ltac cycle_paths :=
  unfold_cycle; run_io_keeping_positions;
  repeat (ask_bus; run_io_keeping_positions);
  flatten_log.

(** Case analysis on the position [i] of an entry of a log that is spelled
    out. *)
Ltac at_index i H :=
  cbn [nth_error] in H;
  lazymatch type of H with
  | nth_error [] _ = Some _ => destruct i; discriminate H
  | _ => destruct i as [| i]; [| at_index i H]
  end.

(** X4.  A read cycle opens the bus once, first, and then talks to nothing but
    the device it was given: every block write goes to the configuration
    register of that address on that bus with two bytes, every block read
    asks the conversion register for two bytes, every wait is 100 ms, and no
    presence probe is issued. *)
Theorem cycle_stays_on_device :
  forall (T : transport) (h : trace) (address : Z) (resolution : float)
         (i2c_channel : Z),
  exists r tr,
    snd (_read_logical_port T address resolution i2c_channel h)
    = h ++ EOpen i2c_channel r :: tr
    /\ Forall (cycle_event i2c_channel address) tr.
Proof.
  intros T h address resolution i2c_channel.
  cycle_paths.
  all: eexists _, _; split; [reflexivity |].
  all: repeat (apply Forall_cons; [cbn; repeat split; reflexivity |]).
  all: apply Forall_nil.
Qed.

(** X5.  Settle before reading: in the log of a read cycle, every conversion
    read comes directly after the 100 ms wait, which comes directly after an
    acknowledged configuration write to the same device. *)
Theorem cycle_reads_after_settling :
  forall (T : transport) (h : trace) (address : Z) (resolution : float)
         (i2c_channel : Z),
  exists tr,
    snd (_read_logical_port T address resolution i2c_channel h) = h ++ tr
    /\ forall (i : nat) bus a reg len res,
         nth_error tr i = Some (EReadBlock bus a reg len res) ->
         exists (j : nat) data,
           i = S (S j)
           /\ nth_error tr j = Some (EWriteBlock bus a 0x01 data None)
           /\ nth_error tr (S j) = Some (ESleep 100).
Proof.
  intros T h address resolution i2c_channel.
  cycle_paths.
  all: eexists; split; [reflexivity |].
  all: intros i bus a reg len res Hi.
  all: at_index i Hi; try discriminate Hi.
  all: injection Hi as <- <- <- <- <-.
  all: eexists _, _; split; [reflexivity |]; split; reflexivity.
Qed.

(** X6.  No retries: the first bus transaction of a read cycle that ends in an
    exception is the last one.  The only thing logged after it is the print
    of that exception, and the cycle returns the empty list. *)
Theorem cycle_stops_at_first_failure :
  forall (T : transport) (h : trace) (address : Z) (resolution : float)
         (i2c_channel : Z),
  exists tr,
    snd (_read_logical_port T address resolution i2c_channel h) = h ++ tr
    /\ forall (i : nat) ev e,
         nth_error tr i = Some ev ->
         raised ev = Some e ->
         nth_error tr (S i) = Some (EPrint "Error reading voltage: " (Some e))
         /\ List.length tr = S (S i)
         /\ fst (_read_logical_port T address resolution i2c_channel h)
            = Ret [].
Proof.
  intros T h address resolution i2c_channel.
  cycle_paths.
  all: eexists; split; [reflexivity |].
  all: intros i ev cause Hi Hraised.
  all: at_index i Hi; try discriminate Hi.
  all: injection Hi as <-; cbn [raised] in Hraised; try discriminate Hraised.
  all: injection Hraised as <-; repeat split; reflexivity.
Qed.

(** ** The entry point [read] *)

(** The cycle either returns four readings and prints nothing, or returns
    the empty list after printing one error line. *)
Lemma _read_logical_port_log (T : transport) (address : Z) (resolution : float)
    (i2c_channel : Z) (h : trace) :
  exists tr vs,
    _read_logical_port T address resolution i2c_channel h = (Ret vs, h ++ tr)
    /\ ((List.length vs = 4%nat /\ printed tr = [])
        \/ (vs = [] /\ printed tr = ["Error reading voltage: "%string])).
Proof.
  cycle_paths.
  all: eexists _, _; split; [reflexivity |].
  all: first [left; split; reflexivity | right; split; reflexivity].
Qed.

(** The probe prints nothing and moves no data. *)
Lemma probe_is_quiet (T : transport) (i2c_channel address : Z) (h : trace) :
  exists tr,
    snd (_check_if_device_exists T i2c_channel address h) = h ++ tr
    /\ printed tr = []
    /\ Forall (fun ev => is_block_transfer ev = false) tr.
Proof.
  unfold _check_if_device_exists. run_io.
  destruct (t_open T h i2c_channel) as [[] |];
    [..| destruct (t_write_quick T (h ++ [EOpen i2c_channel None])
                     i2c_channel address) as [[] |]].
  all: flatten_log; eexists; split; [reflexivity |].
  all: split; [reflexivity | repeat constructor].
Qed.

(** [read], by the answer of the probe and the bindings of the three module
    names. *)
Lemma read_cases (T : transport) (G : globals) (self : Device) (h : trace) :
  read T G self h
  = match _check_if_device_exists T (i2c_channel self) (address self) h with
    | (Ret true, h1) =>
        match g_address G, g_resolution G, g_i2c_channel G with
        | Some a, Some r, Some c => _read_logical_port T a r c h1
        | None, _, _ =>
            (Raise (AdsReadException (NameError "address")), h1)
        | Some _, None, _ =>
            (Raise (AdsReadException (NameError "resolution")), h1)
        | Some _, Some _, None =>
            (Raise (AdsReadException (NameError "i2c_channel")), h1)
        end
    | (Ret false, h1) =>
        (Raise (AdsReadException
                  match g_i2c_channel G, g_address G with
                  | Some c, Some a => AdsNotFound c a
                  | Some _, None => NameError "address"
                  | None, _ => NameError "i2c_channel"
                  end), h1)
    | (Raise e, h1) => (Raise (AdsReadException e), h1)
    end.
Proof.
  destruct (_check_if_device_exists T (i2c_channel self) (address self) h)
    as [[[|] | e] h1] eqn:Hprobe.
  - destruct (g_address G) as [a |] eqn:Ha,
             (g_resolution G) as [r |] eqn:Hr,
             (g_i2c_channel G) as [c |] eqn:Hc.
    1: exact (read_with_module_names T G self h h1 a r c Hprobe Ha Hr Hc).
    all: unfold read, try_except, bind; rewrite Hprobe, Ha, ?Hr, ?Hc;
      reflexivity.
  - destruct (read_absent_device T G self h h1 Hprobe) as (cause & -> & Hcause).
    destruct (g_i2c_channel G), (g_address G); now subst cause.
  - unfold read, try_except, bind. rewrite Hprobe. reflexivity.
Qed.

(** X7.  The only exception [read] lets through is [AdsReadException]; when it
    returns, the list is empty or holds four readings. *)
Theorem read_raises_only_AdsReadException :
  forall (T : transport) (G : globals) (self : Device) (h : trace),
    (exists vs,
        fst (read T G self h) = Ret vs
        /\ (vs = [] \/ List.length vs = 4%nat))
    \/ (exists cause, fst (read T G self h) = Raise (AdsReadException cause)).
Proof.
  intros T G self h. rewrite read_cases.
  destruct (_check_if_device_exists T (i2c_channel self) (address self) h)
    as [[[|] | e] h1].
  - destruct (g_address G) as [a |], (g_resolution G) as [r |],
             (g_i2c_channel G) as [c |].
    1: { destruct (_read_logical_port_log T a r c h1)
           as (tr & vs & -> & [[Hlen _] | [-> _]]);
         left; eexists; (split; [reflexivity | auto]). }
    all: right; eexists; reflexivity.
  - right. eexists. reflexivity.
  - right. eexists. reflexivity.
Qed.

(** X8.  Unless the probe has answered [True], [read] fails with
    [AdsReadException] and moves no data to or from any register: its log
    is the log of the probe. *)
Theorem read_without_presence_moves_no_data :
  forall (T : transport) (G : globals) (self : Device) (h : trace),
    fst (_check_if_device_exists T (i2c_channel self) (address self) h)
      <> Ret true ->
    exists cause tr,
      read T G self h = (Raise (AdsReadException cause), h ++ tr)
      /\ snd (_check_if_device_exists T (i2c_channel self) (address self) h)
         = h ++ tr
      /\ Forall (fun ev => is_block_transfer ev = false) tr.
Proof.
  intros T G self h Hprobe. rewrite read_cases.
  destruct (probe_is_quiet T (i2c_channel self) (address self) h)
    as (tr & Hlog & _ & Hquiet).
  destruct (_check_if_device_exists T (i2c_channel self) (address self) h)
    as [[[|] | e] h1]; cbn [fst snd] in Hprobe, Hlog; subst h1.
  - now contradiction Hprobe.
  - eexists _, tr. split; [reflexivity | split; [reflexivity | exact Hquiet]].
  - eexists _, tr. split; [reflexivity | split; [reflexivity | exact Hquiet]].
Qed.

Lemma read_without_presence_moves_no_data_witness :
  exists cause tr,
    read empty_bus script_globals (Device_init 0x48 1%float 0) []
    = (Raise (AdsReadException cause), [] ++ tr)
    /\ snd (_check_if_device_exists empty_bus 0 0x48 []) = [] ++ tr
    /\ Forall (fun ev => is_block_transfer ev = false) tr.
Proof.
  apply (read_without_presence_moves_no_data
           empty_bus script_globals (Device_init 0x48 1%float 0) []).
  intros Habsurd. discriminate Habsurd.
Defined.

(** X9.  In a program where one of the module-level names [address],
    [resolution], [i2c_channel] is not bound (the module was imported and
    the caller did not define them), [read] never returns: whatever the bus
    does, it raises [AdsReadException] without having moved any data. *)
Theorem read_needs_module_names :
  forall (T : transport) (G : globals) (self : Device) (h : trace),
    g_address G = None \/ g_resolution G = None \/ g_i2c_channel G = None ->
    exists cause tr,
      read T G self h = (Raise (AdsReadException cause), h ++ tr)
      /\ Forall (fun ev => is_block_transfer ev = false) tr.
Proof.
  intros T G self h Hunbound. rewrite read_cases.
  destruct (probe_is_quiet T (i2c_channel self) (address self) h)
    as (tr & Hlog & _ & Hquiet).
  destruct (_check_if_device_exists T (i2c_channel self) (address self) h)
    as [[[|] | e] h1]; cbn [snd] in Hlog; subst h1.
  - destruct (g_address G) as [a |], (g_resolution G) as [r |],
             (g_i2c_channel G) as [c |].
    1: { destruct Hunbound as [H | [H | H]]; discriminate H. }
    all: eexists _, tr; split; [reflexivity | exact Hquiet].
  - eexists _, tr; split; [reflexivity | exact Hquiet].
  - eexists _, tr; split; [reflexivity | exact Hquiet].
Qed.

Lemma read_needs_module_names_witness :
  exists cause tr,
    read (steady_bus x0f xff) no_globals (Device_init 0x48 1%float 0) []
    = (Raise (AdsReadException cause), [] ++ tr)
    /\ Forall (fun ev => is_block_transfer ev = false) tr.
Proof.
  apply (read_needs_module_names
           (steady_bus x0f xff) no_globals (Device_init 0x48 1%float 0) []).
  left. reflexivity.
Defined.

(** ** More on the bus scan *)

Lemma printed_probe_events (bus : Z) (qs : list (Z * option exn)) :
  printed (map (probe_event bus) qs) = [].
Proof. induction qs as [| q qs IH]; [reflexivity | exact IH]. Qed.

Section MoreLoopFacts.

Variable T : transport.
Variable bus : Z.

(** However the loop ends, its log is a run of probes of a prefix of its
    addresses, in order. *)
Lemma probe_loop_trace (addresses : list Z) :
  forall (avail : list Z) (h : trace),
  exists qs rest,
    snd (probe_loop T bus addresses avail h) = h ++ map (probe_event bus) qs
    /\ addresses = map fst qs ++ rest.
Proof.
  induction addresses as [| a rest IH]; intros avail h.
  - exists [], []. cbn. now rewrite app_nil_r.
  - rewrite probe_loop_step. cbv zeta.
    destruct (t_write_quick T h bus a) as [e |] eqn:Hq.
    + destruct (is_OSError e).
      * destruct (IH avail (h ++ [EWriteQuick bus a (Some e)]))
          as (qs & rest' & -> & ->).
        exists ((a, Some e) :: qs), rest'.
        cbn. now rewrite <- app_assoc.
      * exists [(a, Some e)], rest. split; reflexivity.
    + destruct (IH (avail ++ [a]) (h ++ [EWriteQuick bus a None]))
        as (qs & rest' & -> & ->).
      exists ((a, None) :: qs), rest'.
      cbn. now rewrite <- app_assoc.
Qed.

(** A loop that runs to its end has only met acknowledges and [OSError]s. *)
Lemma probe_loop_answers (addresses : list Z) :
  forall (avail : list Z) (h : trace) (l : list Z) (h' : trace),
    probe_loop T bus addresses avail h = (Ret l, h') ->
    exists qs,
      h' = h ++ map (probe_event bus) qs
      /\ map fst qs = addresses
      /\ l = avail ++ map fst (filter acknowledged qs)
      /\ Forall (fun q => forall e, snd q = Some e -> is_OSError e = true) qs.
Proof.
  induction addresses as [| a rest IH]; intros avail h l h' Hrun.
  - injection Hrun as <- <-. exists [].
    cbn. rewrite !app_nil_r. repeat split; constructor.
  - rewrite probe_loop_step in Hrun. cbv zeta in Hrun.
    destruct (t_write_quick T h bus a) as [e |] eqn:Hq.
    + destruct (is_OSError e) eqn:Hos; [| discriminate Hrun].
      apply IH in Hrun as (qs & -> & <- & -> & Hall).
      exists ((a, Some e) :: qs). cbn. rewrite <- app_assoc.
      repeat split. constructor; [| exact Hall].
      cbn. intros e' [= <-]. exact Hos.
    + apply IH in Hrun as (qs & -> & <- & -> & Hall).
      exists ((a, None) :: qs). cbn. rewrite <- !app_assoc.
      repeat split. constructor; [| exact Hall].
      cbn. intros e' He'. discriminate He'.
Qed.

(** On a bus whose answer to a probe does not depend on what happened
    before, and which only fails with [OSError], the loop collects the
    addresses that acknowledge. *)
Lemma probe_loop_static (addresses : list Z) :
  (forall h1 h2 a, t_write_quick T h1 bus a = t_write_quick T h2 bus a) ->
  (forall h1 a e, t_write_quick T h1 bus a = Some e -> is_OSError e = true) ->
  forall (avail : list Z) (h : trace),
    fst (probe_loop T bus addresses avail h)
    = Ret (avail
           ++ filter (fun a => match t_write_quick T [] bus a with
                               | None => true
                               | Some _ => false
                               end) addresses).
Proof.
  intros Hstatic Hos.
  induction addresses as [| a rest IH]; intros avail h.
  - cbn. now rewrite app_nil_r.
  - rewrite probe_loop_step. cbv zeta. cbn [filter].
    rewrite (Hstatic h [] a).
    destruct (t_write_quick T [] bus a) as [e |] eqn:Hq.
    + rewrite (Hos [] a e Hq). apply IH.
    + rewrite IH. now rewrite <- app_assoc.
Qed.

End MoreLoopFacts.

(** The log of a scan: the opening of the bus, and if that worked the
    announcement and a run of probes. *)
Lemma search_log (T : transport) (i2c_channel : Z) (h : trace) :
  exists r tr,
    snd (search_i2c_memory T i2c_channel h) = h ++ EOpen i2c_channel r :: tr
    /\ r = t_open T h i2c_channel
    /\ match r with
       | Some _ => tr = []
       | None =>
           exists qs rest,
             tr = EPrint "Searching for I2C devices..." None
                    :: map (probe_event i2c_channel) qs
             /\ range 0x03 0x78 = map fst qs ++ rest
       end.
Proof.
  destruct (t_open T h i2c_channel) as [e |] eqn:Hopen.
  - rewrite (search_open_fails T i2c_channel h e Hopen).
    exists (Some e), []. repeat split.
  - rewrite (search_after_open T i2c_channel h Hopen). cbv zeta.
    destruct (probe_loop_trace T i2c_channel (range 0x03 0x78) []
                (h ++ [EOpen i2c_channel None;
                       EPrint "Searching for I2C devices..." None]))
      as (qs & rest & Hlog & Hprefix).
    destruct (probe_loop _ _ _ _ _) as [[[| a l] | e] h'];
      cbn [snd] in Hlog |- *; subst h'.
    all: eexists None, _; rewrite <- app_assoc; cbn [app].
    all: split; [reflexivity |]; split; [reflexivity |].
    all: exists qs, rest; split; [reflexivity | exact Hprefix].
Qed.

(** X10.  The scan never returns an empty list: a scan that finds nothing returns
    [None], so a returned list always has a first element. *)
Theorem scan_never_returns_empty_list :
  forall (T : transport) (i2c_channel : Z) (h : trace),
    fst (search_i2c_memory T i2c_channel h) <> Ret (Some []).
Proof.
  intros T i2c_channel h.
  destruct (t_open T h i2c_channel) as [e |] eqn:Hopen.
  - rewrite (search_open_fails T i2c_channel h e Hopen). discriminate.
  - rewrite (search_after_open T i2c_channel h Hopen). cbv zeta.
    destruct (probe_loop _ _ _ _ _) as [[[| a l] | e] h']; discriminate.
Qed.

(** X11.  The scan opens the bus once, first, and after that only issues presence
    probes, all on that bus and at addresses within 0x03..0x77: it never
    reads or writes a register of any device.  This holds however the scan
    ends. *)
Theorem scan_only_probes :
  forall (T : transport) (i2c_channel : Z) (h : trace),
  exists r tr,
    snd (search_i2c_memory T i2c_channel h) = h ++ EOpen i2c_channel r :: tr
    /\ Forall (scan_event i2c_channel) tr.
Proof.
  intros T i2c_channel h.
  destruct (search_log T i2c_channel h) as (r & tr & Hlog & _ & Hshape).
  exists r, tr. split; [exact Hlog |].
  destruct r as [e |].
  - subst tr. constructor.
  - destruct Hshape as (qs & rest & -> & Hprefix).
    constructor; [reflexivity |].
    apply Forall_forall. intros ev Hev.
    apply in_map_iff in Hev as ([a answer] & <- & Hq).
    cbn. split; [reflexivity |].
    assert (Hin : In a (range 0x03 0x78)).
    { rewrite Hprefix. apply in_or_app. left.
      apply in_map_iff. now exists (a, answer). }
    apply range_bounds in Hin. lia.
Qed.

(** X12.  A scan returns [None] only after probing every address from 0x03 to
    0x77, once each and in order, and getting an [OSError] for every one of
    them. *)
Theorem scan_None_means_all_silent :
  forall (T : transport) (i2c_channel : Z) (h : trace),
    fst (search_i2c_memory T i2c_channel h) = Ret None ->
    exists qs,
      snd (search_i2c_memory T i2c_channel h)
      = h ++ EOpen i2c_channel None
             :: EPrint "Searching for I2C devices..." None
             :: map (probe_event i2c_channel) qs
      /\ map fst qs = range 0x03 0x78
      /\ Forall (fun q => exists e, snd q = Some e /\ is_OSError e = true) qs.
Proof.
  intros T i2c_channel h Hnone.
  destruct (t_open T h i2c_channel) as [e |] eqn:Hopen.
  { rewrite (search_open_fails T i2c_channel h e Hopen) in Hnone.
    discriminate Hnone. }
  rewrite (search_after_open T i2c_channel h Hopen) in Hnone |- *.
  cbv zeta in Hnone |- *.
  destruct (probe_loop _ _ _ _ _) as [[[| a l] | e] h'] eqn:Hloop;
    cbn [fst snd] in Hnone |- *; try discriminate Hnone.
  apply probe_loop_answers in Hloop as (qs & -> & Hprobed & Hfound & Hos).
  exists qs. rewrite <- app_assoc. cbn [app].
  split; [reflexivity |]. split; [exact Hprobed |].
  cbn [app] in Hfound. clear Hprobed.
  induction qs as [| [a [e |]] qs IH]; cbn in Hfound.
  - constructor.
  - apply Forall_cons_iff in Hos as [Ha Hqs].
    constructor; [exists e; split; [reflexivity | now apply Ha] | now apply IH].
  - discriminate Hfound.
Qed.

Lemma scan_None_means_all_silent_witness :
  exists qs,
    snd (search_i2c_memory empty_bus 0 [])
    = [] ++ EOpen 0 None
            :: EPrint "Searching for I2C devices..." None
            :: map (probe_event 0) qs
    /\ map fst qs = range 0x03 0x78
    /\ Forall (fun q => exists e, snd q = Some e /\ is_OSError e = true) qs.
Proof.
  apply (scan_None_means_all_silent empty_bus 0 []).
  vm_compute. reflexivity.
Defined.

(** X13.  On a bus that opens, whose answer to a presence probe depends only on
    the address, and whose probes only fail with [OSError], the scan
    returns the addresses of 0x03..0x77 that acknowledge, in ascending
    order, or [None] if there is none. *)
Theorem scan_of_static_bus :
  forall (T : transport) (i2c_channel : Z) (h : trace),
    t_open T h i2c_channel = None ->
    (forall h1 h2 a,
        t_write_quick T h1 i2c_channel a = t_write_quick T h2 i2c_channel a) ->
    (forall h1 a e,
        t_write_quick T h1 i2c_channel a = Some e -> is_OSError e = true) ->
    let present :=
      filter (fun a => match t_write_quick T [] i2c_channel a with
                       | None => true
                       | Some _ => false
                       end) (range 0x03 0x78) in
    fst (search_i2c_memory T i2c_channel h)
    = Ret (match present with [] => None | _ :: _ => Some present end).
Proof.
  intros T i2c_channel h Hopen Hstatic Hos present.
  rewrite (search_after_open T i2c_channel h Hopen). cbv zeta.
  pose proof (probe_loop_static T i2c_channel (range 0x03 0x78) Hstatic Hos []
                (h ++ [EOpen i2c_channel None;
                       EPrint "Searching for I2C devices..." None])) as Hloop.
  cbn [app] in Hloop. fold present in Hloop.
  destruct (probe_loop _ _ _ _ _) as [[l | e] h'];
    cbn [fst] in Hloop; [| discriminate Hloop].
  injection Hloop as ->.
  destruct present; reflexivity.
Qed.

Lemma scan_of_static_bus_witness :
  fst (search_i2c_memory (lone_ads_bus x0f xff) 0 [EPrint "earlier" None])
  = Ret (Some [0x48]).
Proof.
  rewrite (scan_of_static_bus (lone_ads_bus x0f xff) 0 [EPrint "earlier" None]).
  - vm_compute. reflexivity.
  - reflexivity.
  - intros h1 h2 a. reflexivity.
  - intros h1 a e. cbn. destruct (a =? 72); intros [= <-]. reflexivity.
Defined.

(** ** The script block *)

Lemma printed_app (tr1 tr2 : trace) :
  printed (tr1 ++ tr2) = printed tr1 ++ printed tr2.
Proof. apply flat_map_app. Qed.

(** What [read] logs beyond what was there, with what it printed. *)
Lemma read_log (T : transport) (G : globals) (self : Device) (h : trace) :
  exists tr,
    snd (read T G self h) = h ++ tr
    /\ ((exists vs,
            fst (read T G self h) = Ret vs
            /\ List.length vs = 4%nat /\ printed tr = [])
        \/ (fst (read T G self h) = Ret []
            /\ printed tr = ["Error reading voltage: "%string])
        \/ (exists cause,
              fst (read T G self h) = Raise (AdsReadException cause)
              /\ printed tr = [])).
Proof.
  rewrite read_cases.
  destruct (probe_is_quiet T (i2c_channel self) (address self) h)
    as (tr & Hlog & Hprinted & _).
  destruct (_check_if_device_exists T (i2c_channel self) (address self) h)
    as [[[|] | e] h1]; cbn [snd] in Hlog; subst h1.
  - destruct (g_address G) as [a |], (g_resolution G) as [r |],
             (g_i2c_channel G) as [c |].
    1: { destruct (_read_logical_port_log T a r c (h ++ tr))
           as (tr2 & vs & -> & Hshape).
         exists (tr ++ tr2). cbn [fst snd]. rewrite app_assoc.
         split; [reflexivity |].
         rewrite printed_app, Hprinted. cbn [app].
         destruct Hshape as [[Hlen Hp] | [-> Hp]].
         - left. now exists vs.
         - right. left. now split. }
    all: exists tr; split; [reflexivity |]; right; right;
      eexists; split; [reflexivity | exact Hprinted].
  - exists tr. split; [reflexivity |]. right. right.
    eexists. split; [reflexivity | exact Hprinted].
  - exists tr. split; [reflexivity |]. right. right.
    eexists. split; [reflexivity | exact Hprinted].
Qed.

(** What the scan prints: its announcement, unless the bus did not open. *)
Lemma search_prints (T : transport) (i2c_channel : Z) (h : trace) :
  exists tr,
    snd (search_i2c_memory T i2c_channel h) = h ++ tr
    /\ match t_open T h i2c_channel with
       | Some e =>
           search_i2c_memory T i2c_channel h
           = (Raise (AdsReadExceptionSearching e), h ++ tr)
           /\ tr = [EOpen i2c_channel (Some e)]
       | None => printed tr = ["Searching for I2C devices..."%string]
       end.
Proof.
  destruct (search_log T i2c_channel h) as (r & tr & Hlog & -> & Hshape).
  exists (EOpen i2c_channel (t_open T h i2c_channel) :: tr).
  split; [exact Hlog |].
  destruct (t_open T h i2c_channel) as [e |] eqn:Hopen.
  - subst tr. split; [| reflexivity].
    apply (search_open_fails T i2c_channel h e Hopen).
  - destruct Hshape as (qs & rest & -> & _).
    cbn. now rewrite printed_probe_events.
Qed.

(** [main], by the outcome of the scan and of [read]. *)
Lemma main_cases (T : transport) (h : trace) :
  let ads_sensor :=
    Device_init 0x48 (PrimFloat.div 0x1.0624dd2f1a9fcp+2%float 32767%float) 0 in
  main T h
  = match search_i2c_memory T 0 h with
    | (Raise e, h1) => (Ret None, h1 ++ [EPrint "General error: " (Some e)])
    | (Ret _, h1) =>
        match read T script_globals ads_sensor h1 with
        | (Ret vs, h2) =>
            (Ret (Some vs), h2 ++ [EPrint "Channel readings: " None])
        | (Raise e, h2) =>
            if is_AdsReadException e then
              (Ret None,
               h2 ++ [EPrint "Error reading i2c device: " (Some e);
                      EPrint "General error: " (Some (NameError "voltages"))])
            else if is_AdsNotFound e then
              (Ret None,
               h2 ++ [EPrint "Device not found: " (Some e);
                      EPrint "General error: " (Some (NameError "voltages"))])
            else (Ret None, h2 ++ [EPrint "General error: " (Some e)])
        end
    end.
Proof.
  cbv zeta. unfold main, try_except, try_except2, bind.
  destruct (search_i2c_memory T 0 h) as [[devices | e] h1]; [| reflexivity].
  fold script_globals.
  destruct (read T script_globals _ h1) as [[vs | e] h2]; [reflexivity |].
  destruct (is_AdsReadException e); [| destruct (is_AdsNotFound e)].
  all: cbn; rewrite <- ?app_assoc; reflexivity.
Qed.

(** X14.  The script never ends in an exception, and what it prints is one of five
    sequences: the announcement and four readings; the announcement, the
    cycle's error line and an empty list of readings; the announcement, a
    read error and then a general error (the failed read leaves [voltages]
    unbound); the announcement and a general error (the scan was aborted);
    a general error alone (the bus did not open).  The line "Device not
    found" is never printed. *)
Theorem main_prints :
  forall (T : transport) (h : trace),
  exists tr,
    snd (main T h) = h ++ tr
    /\ ~ In "Device not found: "%string (printed tr)
    /\ ((exists vs,
            fst (main T h) = Ret (Some vs) /\ List.length vs = 4%nat
            /\ printed tr = ["Searching for I2C devices..."%string;
                             "Channel readings: "%string])
        \/ (fst (main T h) = Ret (Some [])
            /\ printed tr = ["Searching for I2C devices..."%string;
                             "Error reading voltage: "%string;
                             "Channel readings: "%string])
        \/ (fst (main T h) = Ret None
            /\ printed tr = ["Searching for I2C devices..."%string;
                             "Error reading i2c device: "%string;
                             "General error: "%string])
        \/ (fst (main T h) = Ret None
            /\ printed tr = ["Searching for I2C devices..."%string;
                             "General error: "%string])
        \/ (fst (main T h) = Ret None
            /\ printed tr = ["General error: "%string])).
Proof.
  intros T h.
  assert (Hlines :
    exists tr,
      snd (main T h) = h ++ tr
      /\ ((exists vs,
              fst (main T h) = Ret (Some vs) /\ List.length vs = 4%nat
              /\ printed tr = ["Searching for I2C devices..."%string;
                               "Channel readings: "%string])
          \/ (fst (main T h) = Ret (Some [])
              /\ printed tr = ["Searching for I2C devices..."%string;
                               "Error reading voltage: "%string;
                               "Channel readings: "%string])
          \/ (fst (main T h) = Ret None
              /\ printed tr = ["Searching for I2C devices..."%string;
                               "Error reading i2c device: "%string;
                               "General error: "%string])
          \/ (fst (main T h) = Ret None
              /\ printed tr = ["Searching for I2C devices..."%string;
                               "General error: "%string])
          \/ (fst (main T h) = Ret None
              /\ printed tr = ["General error: "%string]))).
  { rewrite main_cases. cbv zeta.
    destruct (search_prints T 0 h) as (tr1 & Hlog1 & Hshape1).
    destruct (t_open T h 0) as [e0 |].
    { destruct Hshape1 as [-> ->].
      eexists. rewrite <- app_assoc. cbn [app snd fst].
      split; [reflexivity |]. do 4 right. split; reflexivity. }
    destruct (search_i2c_memory T 0 h) as [[devices | e] h1];
      cbn [snd] in Hlog1; subst h1.
    2: { eexists. rewrite <- app_assoc. cbn [snd fst].
         split; [reflexivity |]. do 3 right. left.
         split; [reflexivity |]. rewrite printed_app, Hshape1. reflexivity. }
    match goal with
    | |- context [read T script_globals ?d _] =>
        destruct (read_log T script_globals d (h ++ tr1))
          as (tr2 & Hlog2 & Hshape2);
        destruct (read T script_globals d (h ++ tr1)) as [[vs | e] h2]
    end; cbn [fst snd] in Hlog2, Hshape2; subst h2.
    - eexists. rewrite <- !app_assoc. cbn [snd fst].
      split; [reflexivity |].
      rewrite !printed_app, Hshape1.
      destruct Hshape2 as [(vs' & [= <-] & Hlen & ->)
                          | [([= ->] & ->) | (c & Habs & _)]];
        [| | discriminate Habs].
      + left. exists vs. repeat split; [exact Hlen].
      + right. left. split; reflexivity.
    - destruct Hshape2 as [(vs' & Habs & _) | [(Habs & _) | (c & [= ->] & Hp)]];
        try discriminate Habs.
      cbn [is_AdsReadException].
      eexists. rewrite <- !app_assoc. cbn [snd fst].
      split; [reflexivity |].
      rewrite !printed_app, Hshape1, Hp.
      do 2 right. left. split; reflexivity. }
  destruct Hlines as (tr & Hlog & Hcases).
  exists tr. split; [exact Hlog |]. split; [| exact Hcases].
  destruct Hcases as [(vs & _ & _ & ->) | [(_ & ->) | [(_ & ->)
                     | [(_ & ->) | (_ & ->)]]]];
    cbn [In]; intros Hin;
    repeat (destruct Hin as [Hin | Hin]; [discriminate Hin |]);
    exact Hin.
Qed.

(** X15.  When the bus cannot be opened the script gives up at once: it logs the
    failed opening and one general error line carrying the scan's
    [AdsReadException], and never constructs or reads the device. *)
Theorem main_on_missing_bus :
  forall (T : transport) (h : trace) (e : exn),
    t_open T h 0 = Some e ->
    main T h
    = (Ret None,
       h ++ [EOpen 0 (Some e);
             EPrint "General error: " (Some (AdsReadExceptionSearching e))]).
Proof.
  intros T h e Hopen. rewrite main_cases. cbv zeta.
  rewrite (search_open_fails T 0 h e Hopen).
  now rewrite <- app_assoc.
Qed.

Lemma main_on_missing_bus_witness :
  main missing_bus []
  = (Ret None,
     [EOpen 0 (Some (OSError 2));
      EPrint "General error: "
        (Some (AdsReadExceptionSearching (OSError 2)))]).
Proof.
  exact (main_on_missing_bus missing_bus [] (OSError 2) eq_refl).
Defined.

(** X16.  When the scan completes but the ADS1115 does not acknowledge its probe,
    the script prints two error lines and no readings: the wrapped
    [AdsNotFound], then a [NameError] for [voltages], which the failed read
    left unbound. *)
Theorem main_on_absent_device :
  forall (T : transport) (h h1 h2 : trace) (devices : option (list Z)),
    search_i2c_memory T 0 h = (Ret devices, h1) ->
    _check_if_device_exists T 0 0x48 h1 = (Ret false, h2) ->
    main T h
    = (Ret None,
       h2 ++ [EPrint "Error reading i2c device: "
                (Some (AdsReadException (AdsNotFound 0 0x48)));
              EPrint "General error: " (Some (NameError "voltages"))]).
Proof.
  intros T h h1 h2 devices Hscan Hprobe.
  rewrite main_cases. cbv zeta. rewrite Hscan.
  rewrite read_cases. cbn [i2c_channel address]. rewrite Hprobe.
  reflexivity.
Qed.

Lemma main_on_absent_device_witness :
  fst (main empty_bus []) = Ret None
  /\ printed (snd (main empty_bus []))
     = ["Searching for I2C devices..."%string;
        "Error reading i2c device: "%string; "General error: "%string].
Proof.
  rewrite (main_on_absent_device empty_bus []
             (snd (search_i2c_memory empty_bus 0 []))
             (snd (search_i2c_memory empty_bus 0 [])
              ++ [EOpen 0 None; EWriteQuick 0 0x48 (Some (OSError 121))])
             None).
  - split; [reflexivity | vm_compute; reflexivity].
  - vm_compute. reflexivity.
  - vm_compute. reflexivity.
Defined.
